(** * Portmaster: the connection decision core and the filterlists module

    A shallow embedding of [firewall.DecideOnConnection] with its deciders
    and of the life cycle of the [filterlists] module ([init], [prep],
    [start], [stop]), followed by the properties checked on them.

    Go pointers that may be nil are options, a nil dereference is a panic,
    mutation of the connection is state passing in a small state-and-panic
    monad, and everything the two packages import is a field of an
    environment record. *)

From Stdlib Require Import QArith.
From stdpp Require Import base tactics option list strings.
From Stdlib Require Import String Ascii ZArith Lia.

Local Open Scope string_scope.
Local Open Scope Z_scope.

(** ** Go runtime: results, panics, strings *)

(** A Go function run on a state either returns a value and leaves a new
    state, or panics. *)
Inductive Res (S A : Type) : Type :=
| Ok (a : A) (s : S)
| Panic (msg : string).
Arguments Ok {S A} a s.
Arguments Panic {S A} msg.

Definition M (S A : Type) : Type := S -> Res S A.

Definition ret {S A} (a : A) : M S A := fun s => Ok a s.

Definition bind {S A B} (m : M S A) (k : A -> M S B) : M S B :=
  fun s => match m s with
           | Ok a s' => k a s'
           | Panic msg => Panic msg
           end.

Definition get {S} : M S S := fun s => Ok s s.
Definition modify {S} (f : S -> S) : M S unit := fun s => Ok tt (f s).
Definition panic {S A} (msg : string) : M S A := fun _ => Panic msg.

Declare Scope go_scope.
Delimit Scope go_scope with go.
Notation "x <- m ;; k" := (bind m (fun x => k))
  (at level 100, m at next level, right associativity) : go_scope.
Notation "m ;;; k" := (bind m (fun _ => k))
  (at level 100, right associativity) : go_scope.

(** [float64] scores are compared with constants only; they are rationals
    here. *)
Definition Qltb (x y : Q) : bool := negb (Qle_bool y x).
Definition Qgtb (x y : Q) : bool := Qltb y x.

Module strings.

(** [strings.Split(s, sep)] for a separator of one byte. *)
Fixpoint Split (s : string) (sep : ascii) : list string :=
  match s with
  | EmptyString => [EmptyString]
  | String c s' =>
      if Ascii.eqb c sep then EmptyString :: Split s' sep
      else match Split s' sep with
           | [] => [String c EmptyString]
           | h :: t => String c h :: t
           end
  end.

(** [strings.TrimRight(s, cutset)] for a cutset of one byte. *)
Fixpoint TrimRight (s : string) (cut : ascii) : string :=
  match s with
  | EmptyString => EmptyString
  | String c s' =>
      let t := TrimRight s' cut in
      if Ascii.eqb c cut && String.eqb t EmptyString then EmptyString
      else String c t
  end.

(** [s[0:n]]: a slice bound past the end of the string panics. *)
Definition slice0 {S} (s : string) (n : nat) : M S string :=
  if (n <=? String.length s)%nat then ret (String.substring 0 n s)
  else panic "slice bounds out of range".

End strings.

(** ** Imported packages *)

Module netutils.

Inductive IPScope : Type :=
| Invalid | Unknown | HostLocal | LinkLocal | SiteLocal
| Global | LocalMulticast | GlobalMulticast.

(** Modelled from the spec: the scope predicates of package netutils (not
    under src/): Localhost is HostLocal, LAN is SiteLocal, LinkLocal or
    LocalMulticast, Global is Global or GlobalMulticast. *)
Definition IsLocalhost (scope : IPScope) : bool :=
  match scope with HostLocal => true | _ => false end.

Definition IsLAN (scope : IPScope) : bool :=
  match scope with
  | SiteLocal | LinkLocal | LocalMulticast => true
  | _ => false
  end.

Definition IsGlobal (scope : IPScope) : bool :=
  match scope with
  | Global | GlobalMulticast => true
  | _ => false
  end.

End netutils.

Module endpoints.

Inductive EPResult : Type := NoMatch | Undeterminable | Denied | Permitted.

(** A structured reason context: a map with string keys, kept as an
    association list. *)
Definition Context : Type := list (string * string).

(** [endpoints.Reason]: only [String()] and [Context()] are used. *)
Record Reason : Type := { Reason_String : string; Reason_Context : Context }.

End endpoints.

Module intel.

(** The remote side of a connection. [Lists] is the lazily populated set
    of matched filter-list categories. *)
Record Entity : Type := {
  Domain : string;
  IP : option Z;
  IPScope : netutils.IPScope;
  Lists : list string
}.

(** Modelled from the spec: [Entity.ResetLists] (package intel, not under
    src/) clears the matched categories. *)
Definition ResetLists (e : Entity) : Entity :=
  {| Domain := Domain e; IP := IP e; IPScope := IPScope e; Lists := [] |}.

End intel.

Module profile.

Inductive DefaultAction_t : Type :=
| DefaultActionNotSet | DefaultActionBlock | DefaultActionAsk | DefaultActionPermit.

(** The layered profile as the deciders see it: its configuration
    predicates, its endpoint matchers (which take the entity pointer, nil
    included) and its revision counter. *)
Record LayeredProfile : Type := {
  BlockInbound : bool;
  BlockP2P : bool;
  BlockScopeInternet : bool;
  BlockScopeLAN : bool;
  BlockScopeLocal : bool;
  PreventBypassing : bool;
  DomainHeuristics : bool;
  DisableAutoPermit : bool;
  RemoveOutOfScopeDNS : bool;
  DefaultAction : DefaultAction_t;
  RevisionCounter : N;
  MatchEndpoint : option intel.Entity -> endpoints.EPResult * endpoints.Reason;
  MatchServiceEndpoint : option intel.Entity -> endpoints.EPResult * endpoints.Reason;
  MatchFilterLists : option intel.Entity -> endpoints.EPResult * endpoints.Reason
}.

Definition RevisionCnt (lp : LayeredProfile) : N := RevisionCounter lp.

(** The option keys of package profile, whose values are not under src/. *)
Record CfgKeys : Type := {
  CfgOptionDefaultActionKey : string;
  CfgOptionServiceEndpointsKey : string;
  CfgOptionEndpointsKey : string;
  CfgOptionBlockInboundKey : string;
  CfgOptionBlockP2PKey : string;
  CfgOptionBlockScopeInternetKey : string;
  CfgOptionBlockScopeLANKey : string;
  CfgOptionBlockScopeLocalKey : string;
  CfgOptionPreventBypassingKey : string;
  CfgOptionFilterListsKey : string;
  CfgOptionRemoveOutOfScopeDNSKey : string;
  CfgOptionDomainHeuristicsKey : string;
  CfgOptionDisableAutoPermitKey : string
}.

End profile.

Module process.

(** [Profile] is the layered profile the process points to, nil when the
    process or its profile is unknown. *)
Record Process : Type := {
  Pid : Z;
  Path : string;
  Name : string;
  ExecName : string;
  IsSystemResolver : bool;
  Profile : option profile.LayeredProfile
}.

Definition setProfile (lp : profile.LayeredProfile) (p : Process) : Process :=
  {| Pid := Pid p; Path := Path p; Name := Name p; ExecName := ExecName p;
     IsSystemResolver := IsSystemResolver p; Profile := Some lp |}.

End process.

Module packet.

(** [packet.Info]; addresses are numbers, so [net.IP.Equal] is equality
    of numbers. *)
Record Info : Type := {
  Inbound : bool;
  Version : Z;
  Protocol : Z;
  Src : Z;
  SrcPort : Z;
  Dst : Z;
  DstPort : Z
}.

(** A packet is known by its info; [IsOutbound] is the negation of
    [Info().Inbound]. *)
Definition Packet : Type := Info.
Definition IsOutbound (pkt : Packet) : bool := negb (Inbound pkt).

End packet.

Module netenv.

Inductive OnlineStatus : Type :=
| StatusUnknown | StatusOffline | StatusLimited | StatusPortal
| StatusSemiOnline | StatusOnline.

Definition rank (s : OnlineStatus) : nat :=
  match s with
  | StatusUnknown => 0 | StatusOffline => 1 | StatusLimited => 2
  | StatusPortal => 3 | StatusSemiOnline => 4 | StatusOnline => 5
  end%nat.

End netenv.

Module network.

(** Modelled from the spec: the verdicts of package network (not under
    src/), Deny among them. *)
Inductive Verdict : Type :=
| VerdictUndecided | VerdictUndeterminable | VerdictAccept
| VerdictBlock | VerdictDrop | VerdictDeny.

Inductive ConnType : Type := DNSRequest | IPConnection.

Record ResolverInfo : Type := { ResolverIPScope : netutils.IPScope }.

Record Connection : Type := {
  Type_ : ConnType;
  Inbound : bool;
  Entity : option intel.Entity;
  Process : process.Process;
  Resolver : option ResolverInfo;
  Verdict_ : Verdict;
  ReasonMsg : string;
  ReasonOptionKey : string;
  ReasonContext : endpoints.Context;
  ProfileRevisionCounter : N;
  Internal : bool;
  saveWhenFinished : bool
}.

Definition withVerdict (v : Verdict) (msg key : string) (rctx : endpoints.Context)
    (c : Connection) : Connection :=
  {| Type_ := Type_ c; Inbound := Inbound c; Entity := Entity c;
     Process := Process c; Resolver := Resolver c;
     Verdict_ := v; ReasonMsg := msg; ReasonOptionKey := key; ReasonContext := rctx;
     ProfileRevisionCounter := ProfileRevisionCounter c;
     Internal := Internal c; saveWhenFinished := saveWhenFinished c |}.

Definition withVerdictOnly (v : Verdict) (c : Connection) : Connection :=
  withVerdict v (ReasonMsg c) (ReasonOptionKey c) (ReasonContext c) c.

Definition withInternal (b : bool) (c : Connection) : Connection :=
  {| Type_ := Type_ c; Inbound := Inbound c; Entity := Entity c;
     Process := Process c; Resolver := Resolver c;
     Verdict_ := Verdict_ c; ReasonMsg := ReasonMsg c;
     ReasonOptionKey := ReasonOptionKey c; ReasonContext := ReasonContext c;
     ProfileRevisionCounter := ProfileRevisionCounter c;
     Internal := b; saveWhenFinished := saveWhenFinished c |}.

Definition withRevision (n : N) (c : Connection) : Connection :=
  {| Type_ := Type_ c; Inbound := Inbound c; Entity := Entity c;
     Process := Process c; Resolver := Resolver c;
     Verdict_ := Verdict_ c; ReasonMsg := ReasonMsg c;
     ReasonOptionKey := ReasonOptionKey c; ReasonContext := ReasonContext c;
     ProfileRevisionCounter := n;
     Internal := Internal c; saveWhenFinished := saveWhenFinished c |}.

Definition withSave (c : Connection) : Connection :=
  {| Type_ := Type_ c; Inbound := Inbound c; Entity := Entity c;
     Process := Process c; Resolver := Resolver c;
     Verdict_ := Verdict_ c; ReasonMsg := ReasonMsg c;
     ReasonOptionKey := ReasonOptionKey c; ReasonContext := ReasonContext c;
     ProfileRevisionCounter := ProfileRevisionCounter c;
     Internal := Internal c; saveWhenFinished := true |}.

Definition withEntity (e : option intel.Entity) (c : Connection) : Connection :=
  {| Type_ := Type_ c; Inbound := Inbound c; Entity := e;
     Process := Process c; Resolver := Resolver c;
     Verdict_ := Verdict_ c; ReasonMsg := ReasonMsg c;
     ReasonOptionKey := ReasonOptionKey c; ReasonContext := ReasonContext c;
     ProfileRevisionCounter := ProfileRevisionCounter c;
     Internal := Internal c; saveWhenFinished := saveWhenFinished c |}.

Definition withProcess (p : process.Process) (c : Connection) : Connection :=
  {| Type_ := Type_ c; Inbound := Inbound c; Entity := Entity c;
     Process := p; Resolver := Resolver c;
     Verdict_ := Verdict_ c; ReasonMsg := ReasonMsg c;
     ReasonOptionKey := ReasonOptionKey c; ReasonContext := ReasonContext c;
     ProfileRevisionCounter := ProfileRevisionCounter c;
     Internal := Internal c; saveWhenFinished := saveWhenFinished c |}.

End network.

(** ** Package firewall *)

Module firewall.

Local Open Scope go_scope.

(** The names of the decider functions; [decider] below maps a name to
    its function. *)
Inductive deciderName : Type :=
| checkPortmasterConnection_ | checkSelfCommunication_ | checkConnectionType_
| checkConnectionScope_ | checkEndpointLists_ | checkResolverScope_
| checkConnectivityDomain_ | checkBypassPrevention_ | checkFilterLists_
| dropInbound_ | checkDomainHeuristics_ | checkAutoPermitRelated_.

(** What a verdict setter is called with. *)
Record verdictCall : Type := {
  callVerdict : network.Verdict;
  callReason : string;
  callOptionKey : string
}.

(** Everything [DecideOnConnection] reaches outside the file. *)
Record Env : Type := {
  ownPID : Z;
  (** [state.Lookup]: the peer PID, or an error. *)
  state_Lookup : packet.Info -> bool -> option Z;
  (** [process.GetOrFindProcess]: the process, or an error. *)
  process_GetOrFindProcess : Z -> option process.Process;
  netenv_GetOnlineStatus : netenv.OnlineStatus;
  netenv_IsConnectivityDomain : string -> bool;
  (** [PreventBypassing] of bypassing.go. *)
  PreventBypassing : network.Connection -> endpoints.EPResult * string * endpoints.Context;
  (** [publicsuffix.EffectiveTLDPlusOne]: the eTLD+1, or an error. *)
  publicsuffix_EffectiveTLDPlusOne : string -> option string;
  dga_LmsScore : string -> Q;
  dga_LmsScoreOfDomain : string -> Q;
  levenshtein_Match : string -> string -> Q;
  (** [LayeredProfile.NeedsUpdate] and the recomposition [Update] does. *)
  profile_NeedsUpdate : profile.LayeredProfile -> bool;
  profile_recompose : profile.LayeredProfile -> profile.LayeredProfile;
  (** The answer to a prompt: the setter call it ends in, if any. *)
  promptAnswer : network.Connection -> option packet.Packet -> option verdictCall;
  keys : profile.CfgKeys
}.

(** The deciders run on the connection. *)
Definition onConn (f : network.Connection -> network.Connection)
    : M network.Connection unit := modify f.

Definition getConn : M network.Connection network.Connection := get.

(** [conn.Entity.f]: a nil entity panics. *)
Definition entity : M network.Connection intel.Entity :=
  c <- getConn ;;
  match network.Entity c with
  | Some e => ret e
  | None => panic "nil pointer dereference"
  end.

(** Modelled from the spec: the verdict setters of package network (not
    under src/). Each sets the verdict, the reason, its option key and
    its context. *)
Definition SetVerdict (v : network.Verdict) (reason key : string)
    (rctx : endpoints.Context) : M network.Connection unit :=
  onConn (network.withVerdict v reason key rctx).

Definition AcceptWithContext := SetVerdict network.VerdictAccept.
Definition BlockWithContext := SetVerdict network.VerdictBlock.
Definition DropWithContext := SetVerdict network.VerdictDrop.
Definition DenyWithContext := SetVerdict network.VerdictDeny.
Definition Accept (reason key : string) := AcceptWithContext reason key [].
Definition Block (reason key : string) := BlockWithContext reason key [].
Definition Drop (reason key : string) := DropWithContext reason key [].
Definition Deny (reason key : string) := DenyWithContext reason key [].

(** Modelled from the spec: [Connection.SaveWhenFinished] (package
    network, not under src/) marks the connection dirty. *)
Definition SaveWhenFinished : M network.Connection unit := onConn network.withSave.

(** Modelled from the spec: [LayeredProfile.Update] (package profile, not
    under src/) recomposes the profile and returns the new counter. *)
Definition Update (E : Env) (lp : profile.LayeredProfile) : profile.LayeredProfile * N :=
  let lp' := profile_recompose E lp in (lp', profile.RevisionCnt lp').

(** Modelled from the spec: [prompt] (prompt.go, not under src/) ends in
    at most one verdict setter call. *)
Definition prompt (E : Env) (pkt : option packet.Packet) : M network.Connection unit :=
  c <- getConn ;;
  match promptAnswer E c pkt with
  | Some a => SetVerdict (callVerdict a) (callReason a) (callOptionKey a) []
  | None => ret tt
  end.

Definition noReasonOptionKey : string := "".

Definition deciderFn : Type :=
  profile.LayeredProfile -> option packet.Packet -> M network.Connection bool.

Section Deciders.
Variable E : Env.

Definition checkPortmasterConnection : deciderFn := fun _ pkt =>
  c <- getConn ;;
  if (process.Pid (network.Process c) =? ownPID E)
     && match pkt with None => true | Some p => packet.IsOutbound p end
  then
    Accept "connection by Portmaster" noReasonOptionKey ;;;
    onConn (network.withInternal true) ;;;
    ret true
  else ret false.

Definition checkSelfCommunication : deciderFn := fun _ pkt =>
  c <- getConn ;;
  match pkt with
  | Some pktInfo =>
      if (process.Pid (network.Process c) >=? 0)
         && (packet.Src pktInfo =? packet.Dst pktInfo)
      then
        match state_Lookup E
                {| packet.Inbound := negb (packet.Inbound pktInfo);
                   packet.Version := packet.Version pktInfo;
                   packet.Protocol := packet.Protocol pktInfo;
                   packet.Src := packet.Src pktInfo;
                   packet.SrcPort := packet.SrcPort pktInfo;
                   packet.Dst := packet.Dst pktInfo;
                   packet.DstPort := packet.DstPort pktInfo |} true with
        | None => ret false
        | Some otherPid =>
            match process_GetOrFindProcess E otherPid with
            | None => ret false
            | Some otherProcess =>
                if String.eqb (process.Path otherProcess)
                              (process.Path (network.Process c))
                then
                  Accept "process internal connection" noReasonOptionKey ;;;
                  onConn (network.withInternal true) ;;;
                  ret true
                else ret false
            end
        end
      else ret false
  | None => ret false
  end.

Definition checkEndpointLists : deciderFn := fun p _ =>
  c <- getConn ;;
  let '(result, reason, optionKey) :=
    if network.Inbound c
    then (profile.MatchServiceEndpoint p (network.Entity c),
          profile.CfgOptionServiceEndpointsKey (keys E))
    else (profile.MatchEndpoint p (network.Entity c),
          profile.CfgOptionEndpointsKey (keys E)) in
  match result with
  | endpoints.Denied =>
      DenyWithContext (endpoints.Reason_String reason) optionKey
                      (endpoints.Reason_Context reason) ;;;
      ret true
  | endpoints.Permitted =>
      AcceptWithContext (endpoints.Reason_String reason) optionKey
                        (endpoints.Reason_Context reason) ;;;
      ret true
  | _ => ret false
  end.

Definition checkConnectionType : deciderFn := fun p _ =>
  c <- getConn ;;
  match network.Type_ c with
  | network.DNSRequest => ret false
  | network.IPConnection =>
      case2 <- (if network.Inbound c
                then e <- entity ;;
                     ret (negb (netutils.IsLocalhost (intel.IPScope e))
                          && profile.BlockInbound p)
                else ret false) ;;
      if (case2 : bool) then
        Drop "inbound connections blocked"
             (profile.CfgOptionBlockInboundKey (keys E)) ;;;
        ret true
      else
        e <- entity ;;
        if netutils.IsGlobal (intel.IPScope e)
           && String.eqb (intel.Domain e) ""
           && profile.BlockP2P p
        then
          Block "direct connections (P2P) blocked"
                (profile.CfgOptionBlockP2PKey (keys E)) ;;;
          ret true
        else ret false
  end.

Definition checkConnectivityDomain : deciderFn := fun p _ =>
  c <- getConn ;;
  e <- entity ;;
  if String.eqb (intel.Domain e) "" then ret false
  else if (netenv.rank netenv.StatusPortal <? netenv.rank (netenv_GetOnlineStatus E))%nat
  then ret false
  else if network.Inbound c then ret false
  else if profile.BlockScopeInternet p then ret false
  else if netenv_IsConnectivityDomain E (intel.Domain e) then
    Accept "special grant for connectivity domain during network bootstrap"
           noReasonOptionKey ;;;
    ret true
  else ret false.

Definition checkConnectionScope : deciderFn := fun p _ =>
  c <- getConn ;;
  match network.Type_ c with
  | network.DNSRequest =>
      if profile.BlockScopeInternet p && profile.BlockScopeLAN p then
        Block "Internet and LAN access blocked"
              (profile.CfgOptionBlockScopeInternetKey (keys E)) ;;;
        ret true
      else ret false
  | network.IPConnection =>
      e <- entity ;;
      match intel.IPScope e with
      | netutils.Global | netutils.GlobalMulticast =>
          if profile.BlockScopeInternet p then
            Deny "Internet access blocked"
                 (profile.CfgOptionBlockScopeInternetKey (keys E)) ;;;
            ret true
          else ret false
      | netutils.SiteLocal | netutils.LinkLocal | netutils.LocalMulticast =>
          if profile.BlockScopeLAN p then
            Block "LAN access blocked"
                  (profile.CfgOptionBlockScopeLANKey (keys E)) ;;;
            ret true
          else ret false
      | netutils.HostLocal =>
          if profile.BlockScopeLocal p then
            Block "Localhost access blocked"
                  (profile.CfgOptionBlockScopeLocalKey (keys E)) ;;;
            ret true
          else ret false
      | _ =>
          Deny "invalid IP" noReasonOptionKey ;;;
          ret true
      end
  end.

Definition checkBypassPrevention : deciderFn := fun p _ =>
  if profile.PreventBypassing p then
    c <- getConn ;;
    let '(result, reason, reasonCtx) := PreventBypassing E c in
    match result with
    | endpoints.Denied =>
        BlockWithContext ("bypass prevention: " ++ reason)
                         (profile.CfgOptionPreventBypassingKey (keys E)) reasonCtx ;;;
        ret true
    | endpoints.Permitted =>
        AcceptWithContext ("bypass prevention: " ++ reason)
                          (profile.CfgOptionPreventBypassingKey (keys E)) reasonCtx ;;;
        ret true
    | _ => ret false
    end
  else ret false.

Definition checkFilterLists : deciderFn := fun p _ =>
  c <- getConn ;;
  let '(result, reason) := profile.MatchFilterLists p (network.Entity c) in
  match result with
  | endpoints.Denied =>
      DenyWithContext (endpoints.Reason_String reason)
                      (profile.CfgOptionFilterListsKey (keys E))
                      (endpoints.Reason_Context reason) ;;;
      ret true
  | _ => ret false
  end.

Definition checkResolverScope : deciderFn := fun p _ =>
  c <- getConn ;;
  match network.Type_ c with
  | network.DNSRequest => ret false
  | network.IPConnection =>
      if negb (profile.RemoveOutOfScopeDNS p) then ret false
      else match network.Resolver c with
      | None => ret false
      | Some resolver =>
          case4 <- (if netutils.IsGlobal (network.ResolverIPScope resolver)
                    then e <- entity ;;
                         ret (netutils.IsLAN (intel.IPScope e)
                              || netutils.IsLocalhost (intel.IPScope e))
                    else ret false) ;;
          if (case4 : bool) then
            Block "DNS server horizon violation: global DNS server returned local IP address"
                  (profile.CfgOptionRemoveOutOfScopeDNSKey (keys E)) ;;;
            ret true
          else
            case5 <- (if netutils.IsLAN (network.ResolverIPScope resolver)
                      then e <- entity ;;
                           ret (netutils.IsLocalhost (intel.IPScope e))
                      else ret false) ;;
            if (case5 : bool) then
              Block "DNS server horizon violation: LAN DNS server returned localhost IP address"
                    (profile.CfgOptionRemoveOutOfScopeDNSKey (keys E)) ;;;
              ret true
            else ret false
      end
  end.

Definition checkDomainHeuristics : deciderFn := fun p _ =>
  if negb (profile.DomainHeuristics p) then ret false
  else
    e <- entity ;;
    if String.eqb (intel.Domain e) "" then ret false
    else
      let trimmedDomain := strings.TrimRight (intel.Domain e) "." in
      match publicsuffix_EffectiveTLDPlusOne E trimmedDomain with
      | None => ret false
      | Some etld1 =>
          let domainToCheck := hd "" (strings.Split etld1 ".") in
          let score := dga_LmsScore E domainToCheck in
          if Qltb score 5 then
            Block "possible DGA domain commonly used by malware"
                  (profile.CfgOptionDomainHeuristicsKey (keys E)) ;;;
            ret true
          else if (String.length etld1 + 100 <? String.length (intel.Domain e))%nat
          then
            domainToCheck <- strings.slice0 trimmedDomain (String.length etld1) ;;
            let score := dga_LmsScoreOfDomain E domainToCheck in
            if Qltb score 10 then
              Block "possible data tunnel for covert communication and protection bypassing"
                    (profile.CfgOptionDomainHeuristicsKey (keys E)) ;;;
              ret true
            else ret false
          else ret false
      end.

Definition dropInbound : deciderFn := fun _ _ =>
  c <- getConn ;;
  if network.Inbound c then
    Drop "incoming connection blocked by default"
         (profile.CfgOptionServiceEndpointsKey (keys E)) ;;;
    ret true
  else ret false.

(** The three comparisons of one round of [matchLoop]: the path
    elements in order, then the process name, then the exec name. *)
Definition matchProcessElement (domainElement : string)
    (pathElements : list string) (proc : process.Process) : option string :=
  match List.find (fun pathElement =>
                     Qgtb (levenshtein_Match E domainElement pathElement) (1 # 2))
                  pathElements with
  | Some pathElement => Some pathElement
  | None =>
      if Qgtb (levenshtein_Match E domainElement (process.Name proc)) (1 # 2)
      then Some (process.Name proc)
      else if Qgtb (levenshtein_Match E domainElement (process.ExecName proc)) (1 # 2)
      then Some (process.ExecName proc)
      else None
  end.

(** [matchLoop]: the first domain element with a match, and its match. *)
Fixpoint matchLoop (domainElements pathElements : list string)
    (proc : process.Process) : option (string * string) :=
  match domainElements with
  | [] => None
  | domainElement :: rest =>
      match matchProcessElement domainElement pathElements proc with
      | Some processElement => Some (domainElement, processElement)
      | None => matchLoop rest pathElements proc
      end
  end.

(** [filepath.Separator] is the slash. *)
Definition checkRelation : M network.Connection (bool * string) :=
  e <- entity ;;
  if negb (String.eqb (intel.Domain e) "") then ret (false, "")
  else
    c <- getConn ;;
    if process.Pid (network.Process c) <? 0 then ret (false, "")
    else
      let pathElements := strings.Split (process.Path (network.Process c)) "/" in
      let pathElements :=
        if (2 <? List.length pathElements)%nat
        then drop (List.length pathElements - 2) pathElements
        else pathElements in
      let domainElements := strings.Split (intel.Domain e) "." in
      match matchLoop domainElements pathElements (network.Process c) with
      | Some (domainElement, processElement) =>
          ret (true,
               "auto allowed: domain is related to process: " ++ domainElement
               ++ " is related to " ++ processElement)
      | None => ret (false, "")
      end.

Definition checkAutoPermitRelated : deciderFn := fun p _ =>
  match profile.DefaultAction p with
  | profile.DefaultActionPermit => ret false
  | _ =>
      if profile.DisableAutoPermit p then ret false
      else
        r <- checkRelation ;;
        let '(related, reason) := r in
        if (related : bool) then
          Accept reason (profile.CfgOptionDisableAutoPermitKey (keys E)) ;;;
          ret true
        else ret false
  end.

Definition decider (d : deciderName) : deciderFn :=
  match d with
  | checkPortmasterConnection_ => checkPortmasterConnection
  | checkSelfCommunication_ => checkSelfCommunication
  | checkConnectionType_ => checkConnectionType
  | checkConnectionScope_ => checkConnectionScope
  | checkEndpointLists_ => checkEndpointLists
  | checkResolverScope_ => checkResolverScope
  | checkConnectivityDomain_ => checkConnectivityDomain
  | checkBypassPrevention_ => checkBypassPrevention
  | checkFilterLists_ => checkFilterLists
  | dropInbound_ => dropInbound
  | checkDomainHeuristics_ => checkDomainHeuristics
  | checkAutoPermitRelated_ => checkAutoPermitRelated
  end.

Definition defaultDeciders : list deciderName :=
  [ checkPortmasterConnection_; checkSelfCommunication_; checkConnectionType_;
    checkConnectionScope_; checkEndpointLists_; checkResolverScope_;
    checkConnectivityDomain_; checkBypassPrevention_; checkFilterLists_;
    dropInbound_; checkDomainHeuristics_; checkAutoPermitRelated_ ].

Definition dnsFromSystemResolverDeciders : list deciderName :=
  [ checkConnectivityDomain_; checkBypassPrevention_ ].

(** The state a decision is followed on: the connection, and a ghost
    log of the deciders [runDeciders] has called, latest first. *)
Record St : Type := { conn : network.Connection; called : list deciderName }.

Definition logCall (d : deciderName) : M St unit :=
  modify (fun s => {| conn := conn s; called := d :: called s |}).

(** A computation on the connection, run on the connection of the
    state. *)
Definition inConn {A} (m : M network.Connection A) : M St A :=
  fun s => match m (conn s) with
           | Ok a c => Ok a {| conn := c; called := called s |}
           | Panic msg => Panic msg
           end.

(** The loop of [runDeciders]. The usage lock of the profile, held
    around the loop, is not part of the model. *)
Fixpoint runDecidersLoop (selectedDeciders : list deciderName)
    (layeredProfile : profile.LayeredProfile) (pkt : option packet.Packet)
    : M St (bool * profile.DefaultAction_t) :=
  match selectedDeciders with
  | [] => ret (false, profile.DefaultAction layeredProfile)
  | d :: rest =>
      logCall d ;;;
      concluded <- inConn (decider d layeredProfile pkt) ;;
      if (concluded : bool) then ret (true, profile.DefaultActionNotSet)
      else runDecidersLoop rest layeredProfile pkt
  end.

Definition runDeciders := runDecidersLoop.

(** Lines 184 to 205 of [DecideOnConnection]: bring the profile and the
    connection's revision counter up to date. The profile is shared
    through the process, so the recomposed profile is stored there. *)
Definition updateProfileRevision (layeredProfile : profile.LayeredProfile)
    : M network.Connection profile.LayeredProfile :=
  if profile_NeedsUpdate E layeredProfile then
    let '(updated, revCnt) := Update E layeredProfile in
    onConn (fun c => network.withProcess
                       (process.setProfile updated (network.Process c)) c) ;;;
    onConn (network.withRevision revCnt) ;;;
    SaveWhenFinished ;;;
    onConn (network.withVerdictOnly network.VerdictUndecided) ;;;
    onConn (fun c => network.withEntity (intel.ResetLists <$> network.Entity c) c) ;;;
    ret updated
  else
    let revCnt := profile.RevisionCnt layeredProfile in
    c <- getConn ;;
    (if negb (network.ProfileRevisionCounter c =? revCnt)%N then
       onConn (network.withRevision revCnt) ;;;
       SaveWhenFinished
     else ret tt) ;;;
    ret layeredProfile.

Definition DecideOnConnection (pkt : option packet.Packet) : M St unit :=
  c <- inConn getConn ;;
  match process.Profile (network.Process c) with
  | None => inConn (Deny "unknown process or profile" noReasonOptionKey)
  | Some layeredProfile =>
      layeredProfile <- inConn (updateProfileRevision layeredProfile) ;;
      c <- inConn getConn ;;
      match network.Type_ c, process.IsSystemResolver (network.Process c) with
      | network.DNSRequest, true =>
          r <- runDeciders dnsFromSystemResolverDeciders layeredProfile pkt ;;
          if negb (fst r) then
            inConn (Accept "allowing system resolver dns request" noReasonOptionKey)
          else ret tt
      | _, _ =>
          r <- runDeciders defaultDeciders layeredProfile pkt ;;
          let '(done, defaultAction) := r in
          if (done : bool) then ret tt
          else match defaultAction with
               | profile.DefaultActionPermit =>
                   inConn (Accept "allowed by default action"
                                  (profile.CfgOptionDefaultActionKey (keys E)))
               | profile.DefaultActionAsk => inConn (prompt E pkt)
               | _ =>
                   inConn (Deny "blocked by default action"
                                (profile.CfgOptionDefaultActionKey (keys E)))
               end
      end
  end.

End Deciders.

End firewall.

(** ** Package filterlists *)

Module filterlists.

Local Open Scope go_scope.

Definition filterlistsDisabled : string := "filterlists:disabled".
Definition filterlistsUpdateFailed : string := "filterlists:update-failed".
Definition filterlistsStaleDataSurvived : string := "filterlists:staledata".
Definition filterlistsUpdateInProgress : string := "filterlists:update-in-progress".

(** Go errors are their messages; [None] is the nil error. *)
Definition error : Type := option string.

(** A warning raised through [module.Warning]. *)
Record Warning : Type := { warnID : string; warnTitle : string; warnMsg : string }.

(** The two closures [prep] registers. *)
Inductive hookFn : Type := onResourceUpdate | onOnlineStatusChanged.

Record EventHook : Type := {
  hookModule : string;
  hookEvent : string;
  hookDescription : string;
  hookHandler : hookFn
}.

(** The package-level variables. Channels live in a heap, [chans], where
    [true] marks a closed channel; [filterListsLoaded] holds a reference
    into it, so a goroutine that kept the old reference still sees the
    old channel. [A] is the state of [defaultFilter]. *)
Record State (A : Type) : Type := {
  ignoreUpdateEvents : bool;
  ignoreNetEnvEvents : bool;
  module : option string;
  hooks : list EventHook;
  chans : list bool;
  filterListsLoaded : nat;
  defaultFilter : A;
  warnings : list Warning
}.
Arguments ignoreUpdateEvents {A} _.
Arguments ignoreNetEnvEvents {A} _.
Arguments module {A} _.
Arguments hooks {A} _.
Arguments chans {A} _.
Arguments filterListsLoaded {A} _.
Arguments defaultFilter {A} _.
Arguments warnings {A} _.

(** The state a run is followed on: the variables, and a ghost count of
    the calls of [tryListUpdate]. *)
Record St (A : Type) : Type := { vars : State A; listUpdates : nat }.
Arguments vars {A} _.
Arguments listUpdates {A} _.

(** What the package imports, and its functions that are not under
    src/. *)
Record Env (A : Type) : Type := {
  updates_ModuleName : string;
  updates_ResourceUpdateEvent : string;
  netenv_OnlineStatusChangedEvent : string;
  netenv_Online : bool;
  (** the error of [module.RegisterEventHook] for a module and an event *)
  RegisterEventHook_err : string -> string -> error;
  (** [getCacheDatabaseVersion]: the version, or an error *)
  getCacheDatabaseVersion : string + string;
  (** [defaultFilter.loadFromCache] *)
  loadFromCache : A -> A * error;
  (** [tryListUpdate] *)
  tryListUpdate : State A -> Res (State A) error
}.
Arguments updates_ModuleName {A} _.
Arguments updates_ResourceUpdateEvent {A} _.
Arguments netenv_OnlineStatusChangedEvent {A} _.
Arguments netenv_Online {A} _.
Arguments RegisterEventHook_err {A} _.
Arguments getCacheDatabaseVersion {A} _.
Arguments loadFromCache {A} _.
Arguments tryListUpdate {A} _.

Section Lifecycle.
Context {A : Type}.
Variable E : Env A.

Definition onVars (f : State A -> State A) : M (St A) unit :=
  modify (fun s => {| vars := f (vars s); listUpdates := listUpdates s |}).

Definition getVars : M (St A) (State A) := fun s => Ok (vars s) s.

(** [make(chan struct{})]: a new, open channel. *)
Definition makeChan : M (St A) nat :=
  v <- getVars ;;
  onVars (fun v => {| ignoreUpdateEvents := ignoreUpdateEvents v;
                      ignoreNetEnvEvents := ignoreNetEnvEvents v;
                      module := module v; hooks := hooks v;
                      chans := chans v ++ [false];
                      filterListsLoaded := filterListsLoaded v;
                      defaultFilter := defaultFilter v;
                      warnings := warnings v |}) ;;;
  ret (List.length (chans v)).

(** [close(ch)]: closing a closed channel panics. *)
Definition closeChan (ch : nat) : M (St A) unit :=
  v <- getVars ;;
  match chans v !! ch with
  | Some false =>
      onVars (fun v => {| ignoreUpdateEvents := ignoreUpdateEvents v;
                          ignoreNetEnvEvents := ignoreNetEnvEvents v;
                          module := module v; hooks := hooks v;
                          chans := <[ch := true]> (chans v);
                          filterListsLoaded := filterListsLoaded v;
                          defaultFilter := defaultFilter v;
                          warnings := warnings v |})
  | Some true => panic "close of closed channel"
  | None => panic "close of nil channel"
  end.

Definition setFilterListsLoaded (ch : nat) : M (St A) unit :=
  onVars (fun v => {| ignoreUpdateEvents := ignoreUpdateEvents v;
                      ignoreNetEnvEvents := ignoreNetEnvEvents v;
                      module := module v; hooks := hooks v;
                      chans := chans v;
                      filterListsLoaded := ch;
                      defaultFilter := defaultFilter v;
                      warnings := warnings v |}).

(** [module.Warning]: the warning is raised, latest first. *)
Definition module_Warning (id title msg : string) : M (St A) unit :=
  onVars (fun v => {| ignoreUpdateEvents := ignoreUpdateEvents v;
                      ignoreNetEnvEvents := ignoreNetEnvEvents v;
                      module := module v; hooks := hooks v;
                      chans := chans v;
                      filterListsLoaded := filterListsLoaded v;
                      defaultFilter := defaultFilter v;
                      warnings := {| warnID := id; warnTitle := title;
                                     warnMsg := msg |} :: warnings v |}).

(** [module.RegisterEventHook]: on success the hook is kept. *)
Definition module_RegisterEventHook (moduleName event description : string)
    (fn : hookFn) : M (St A) error :=
  match RegisterEventHook_err E moduleName event with
  | Some err => ret (Some err)
  | None =>
      onVars (fun v => {| ignoreUpdateEvents := ignoreUpdateEvents v;
                          ignoreNetEnvEvents := ignoreNetEnvEvents v;
                          module := module v;
                          hooks := hooks v ++
                            [{| hookModule := moduleName; hookEvent := event;
                                hookDescription := description;
                                hookHandler := fn |}];
                          chans := chans v;
                          filterListsLoaded := filterListsLoaded v;
                          defaultFilter := defaultFilter v;
                          warnings := warnings v |}) ;;;
      ret None
  end.

(** A call of [tryListUpdate], counted. *)
Definition call_tryListUpdate : M (St A) error :=
  fun s => match tryListUpdate E (vars s) with
           | Ok err v => Ok err {| vars := v; listUpdates := S (listUpdates s) |}
           | Panic msg => Panic msg
           end.

(** The package-level variables after their initialisers: both flags
    unset, one open channel. *)
Definition initial (filter : A) : St A :=
  {| vars := {| ignoreUpdateEvents := false; ignoreNetEnvEvents := false;
                module := None; hooks := [];
                chans := [false]; filterListsLoaded := 0%nat;
                defaultFilter := filter; warnings := [] |};
     listUpdates := 0 |}.

Definition init : M (St A) unit :=
  onVars (fun v => {| ignoreUpdateEvents := ignoreUpdateEvents v;
                      ignoreNetEnvEvents := true;
                      module := module v; hooks := hooks v;
                      chans := chans v;
                      filterListsLoaded := filterListsLoaded v;
                      defaultFilter := defaultFilter v;
                      warnings := warnings v |}) ;;;
  onVars (fun v => {| ignoreUpdateEvents := ignoreUpdateEvents v;
                      ignoreNetEnvEvents := ignoreNetEnvEvents v;
                      module := Some "filterlists"; hooks := hooks v;
                      chans := chans v;
                      filterListsLoaded := filterListsLoaded v;
                      defaultFilter := defaultFilter v;
                      warnings := warnings v |}).

(** The handler of the resource update event. *)
Definition resourceUpdateHandler : M (St A) error :=
  v <- getVars ;;
  if ignoreUpdateEvents v then ret None
  else call_tryListUpdate.

(** The handler of the online status changed event. *)
Definition onlineStatusChangedHandler : M (St A) error :=
  v <- getVars ;;
  if ignoreNetEnvEvents v then ret None
  else if negb (netenv_Online E) then ret None
  else call_tryListUpdate.

Definition handler (fn : hookFn) : M (St A) error :=
  match fn with
  | onResourceUpdate => resourceUpdateHandler
  | onOnlineStatusChanged => onlineStatusChangedHandler
  end.

Definition prep : M (St A) error :=
  err <- module_RegisterEventHook (updates_ModuleName E)
           (updates_ResourceUpdateEvent E) "Check for blocklist updates"
           onResourceUpdate ;;
  match err with
  | Some e =>
      ret (Some ("failed to register resource update event handler: " ++ e))
  | None =>
      err <- module_RegisterEventHook "netenv"
               (netenv_OnlineStatusChangedEvent E) "Check for blocklist updates"
               onOnlineStatusChanged ;;
      match err with
      | Some e =>
          ret (Some ("failed to register online status changed event handler: " ++ e))
      | None => ret None
      end
  end.

Definition warnAboutDisabledFilterLists : M (St A) unit :=
  module_Warning filterlistsDisabled "Filter Lists Are Initializing"
    "Filter lists are being downloaded and set up in the background. Until this initialization is finished, the filter lists are disabled and will not block anything.".

(** [defaultFilter.loadFromCache()] on the package's filter. *)
Definition defaultFilter_loadFromCache : M (St A) error :=
  v <- getVars ;;
  let '(filter, err) := loadFromCache E (defaultFilter v) in
  onVars (fun v => {| ignoreUpdateEvents := ignoreUpdateEvents v;
                      ignoreNetEnvEvents := ignoreNetEnvEvents v;
                      module := module v; hooks := hooks v;
                      chans := chans v;
                      filterListsLoaded := filterListsLoaded v;
                      defaultFilter := filter;
                      warnings := warnings v |}) ;;;
  ret err.

(** [filterListLock], held during [start], is not part of the model. *)
Definition start : M (St A) error :=
  err <- match getCacheDatabaseVersion E with
         | inl _ =>
             err <- defaultFilter_loadFromCache ;;
             match err with
             | Some e => ret (Some ("failed to initialize bloom filters: " ++ e))
             | None => ret None
             end
         | inr e => ret (Some e)
         end ;;
  match (err : error) with
  | Some _ => warnAboutDisabledFilterLists
  | None => v <- getVars ;; closeChan (filterListsLoaded v)
  end ;;;
  ret None.

Definition stop : M (St A) error :=
  ch <- makeChan ;;
  setFilterListsLoaded ch ;;;
  ret None.

(** Whether the signal [filterListsLoaded] has fired: its channel is
    closed. *)
Definition isLoaded (v : State A) : bool :=
  match chans v !! filterListsLoaded v with
  | Some b => b
  | None => false
  end.

(** The signal has not fired and can still be closed: its channel is
    open. *)
Definition signalPending (v : State A) : Prop :=
  chans v !! filterListsLoaded v = Some false.

(** What the module manager and the event system call, in some order:
    [prep], [start], [stop] and the registered handlers. *)
Inductive op : Type := callPrep | callStart | callStop | deliver (fn : hookFn).

Definition step (o : op) : M (St A) error :=
  match o with
  | callPrep => prep
  | callStart => start
  | callStop => stop
  | deliver fn => handler fn
  end.

(** A run of calls; the errors returned go to the caller's log. *)
Fixpoint run (ops : list op) : M (St A) unit :=
  match ops with
  | [] => ret tt
  | o :: rest => step o ;;; run rest
  end.

Definition isResourceUpdate (o : op) : bool :=
  match o with
  | deliver onResourceUpdate => true
  | _ => false
  end.

End Lifecycle.

End filterlists.

(** ** Package filepath *)

Module filepath.

(** The scan of [filepath.Ext], from the last byte backwards: the bytes
    passed are kept until a dot ends the scan; a separator or the start of
    the path ends it with nothing. *)
Fixpoint extScan (reversed : list ascii) (passed : list ascii) : list ascii :=
  match reversed with
  | [] => []
  | c :: rest =>
      if Ascii.eqb c "/" then []
      else if Ascii.eqb c "." then c :: passed
      else extScan rest (c :: passed)
  end.

(** [filepath.Ext(path)] where the separator is the slash: the suffix of
    the last element of the path that starts at its last dot. *)
Definition Ext (path : string) : string :=
  string_of_list_ascii (extScan (rev (list_ascii_of_string path)) []).

End filepath.

(** ** Package helper (updates/helper) *)

Module helper.

Local Open Scope go_scope.

Definition error : Type := option string.

(** An [updater.File], known by its path. *)
Record File : Type := { Path : string }.

(** What the package does to the world, latest first. *)
Inductive effect : Type :=
| ReadFile (path : string)
| GetFile (identifier : string)
| Chmod (path : string) (mode : Z).

(** What the package imports. *)
Record Env : Type := {
  GOOS : string;
  GOARCH : string;
  filepath_Join : list string -> string;
  (** [ioutil.ReadFile]: the content, or an error *)
  ioutil_ReadFile : string -> string + string;
  (** [reg.GetFile]: the file pointer and the error it returns *)
  reg_GetFile : string -> option File * error;
  (** [File.UpgradeAvailable] *)
  UpgradeAvailable : File -> bool;
  os_Chmod : string -> Z -> error;
  os_ModeSetuid : Z
}.

(** The package variable [pmElectronUpdate], and the effects so far. *)
Record St : Type := { pmElectronUpdate : option File; effects : list effect }.

Section Helper.
Variable E : Env.

Definition perform (e : effect) : M St unit :=
  modify (fun s => {| pmElectronUpdate := pmElectronUpdate s;
                      effects := e :: effects s |}).

Definition setElectronUpdate (f : option File) : M St unit :=
  modify (fun s => {| pmElectronUpdate := f; effects := effects s |}).

(** [strings.HasSuffix] and [strings.TrimSuffix]. *)
Definition HasSuffix (s suffix : string) : bool :=
  (String.length suffix <=? String.length s)%nat
  && String.eqb (String.substring (String.length s - String.length suffix)
                                  (String.length suffix) s) suffix.

Definition TrimSuffix (s suffix : string) : string :=
  if HasSuffix s suffix
  then String.substring 0 (String.length s - String.length suffix) s
  else s.

Definition PlatformIdentifier (identifier : string) : string :=
  GOOS E ++ "_" ++ GOARCH E ++ "/" ++ identifier.

Definition sysctl (setting : string) : M St (string + string) :=
  let parts := (["/proc"; "sys"] ++ strings.Split setting ".")%list in
  let path := filepath_Join E parts in
  perform (ReadFile path) ;;;
  ret (ioutil_ReadFile E path).

Definition checkSysctl (setting : string) (value : ascii) : M St bool :=
  r <- sysctl setting ;;
  match r with
  | inr _ => ret false
  | inl EmptyString => ret false
  | inl (String c0 _) => ret (Ascii.eqb c0 value)
  end.

(** The mode [0755|os.ModeSetuid]. *)
Definition sandboxMode : Z := Z.lor 493 (os_ModeSetuid E).

Definition EnsureChromeSandboxPermissions : M St error :=
  if negb (String.eqb (GOOS E) "linux") then ret None
  else
    enabled <- checkSysctl "kernel.unprivileged_userns_clone" "1" ;;
    if (enabled : bool) then ret None
    else
      s <- get ;;
      if match pmElectronUpdate s with
         | Some f => negb (UpgradeAvailable E f)
         | None => false
         end
      then ret None
      else
        let identifier := PlatformIdentifier "app/portmaster-app.zip" in
        perform (GetFile identifier) ;;;
        let '(file, err) := reg_GetFile E identifier in
        setElectronUpdate file ;;;
        match err with
        | Some e => ret (Some e)
        | None =>
            match file with
            | None => panic "nil pointer dereference"
            | Some f =>
                let unpackedPath := TrimSuffix (Path f) (filepath.Ext (Path f)) in
                let sandboxFile := filepath_Join E [unpackedPath; "chrome-sandbox"] in
                perform (Chmod sandboxFile sandboxMode) ;;;
                match os_Chmod E sandboxFile sandboxMode with
                | Some e => ret (Some e)
                | None => ret None
                end
            end
        end.

End Helper.

End helper.

(** ** The update command (package main) *)

Module updatecmd.

Local Open Scope go_scope.

Definition error : Type := option string.

(** The two fields of the registry the command sets. They are the
    configuration of the registry: its methods ([Reset], [UpdateIndexes],
    [DownloadUpdates], [SelectVersions], [UnpackResources], [Purge]) are
    taken to read them and leave them as they are. *)
Record Registry : Type := {
  MandatoryUpdates : list string;
  AutoUnpack : list string
}.

(** The calls the command makes, latest first. *)
Inductive event : Type :=
| LogSetLogLevel | LogStart | LogShutdown
| Printf (msg : string)
| RemoveAll (path : string) | StorageDirEnsure | RegistryReset
| UpdateIndexes | DownloadUpdates | SelectVersions | UnpackResources
| Purge (keep : Z).

Record Env : Type := {
  onWindows : bool;
  reset : bool;
  log_Start : error;
  storageDirPath : string;
  os_RemoveAll : string -> error;
  storageDir_Ensure : error;
  registry_UpdateIndexes : Registry -> error;
  registry_DownloadUpdates : Registry -> error;
  registry_UnpackResources : Registry -> error;
  helperEnv : helper.Env
}.

Record St : Type := {
  registry : Registry;
  events : list event;
  helperSt : helper.St
}.

Section Command.
Variable E : Env.

Definition call (e : event) : M St unit :=
  modify (fun s => {| registry := registry s; events := e :: events s;
                      helperSt := helperSt s |}).

Definition setMandatoryUpdates (l : list string) : M St unit :=
  modify (fun s => {| registry := {| MandatoryUpdates := l;
                                     AutoUnpack := AutoUnpack (registry s) |};
                      events := events s; helperSt := helperSt s |}).

Definition setAutoUnpack (l : list string) : M St unit :=
  modify (fun s => {| registry := {| MandatoryUpdates := MandatoryUpdates (registry s);
                                     AutoUnpack := l |};
                      events := events s; helperSt := helperSt s |}).

(** A function of package helper, run on the helper's part of the state. *)
Definition inHelper {A} (m : M helper.St A) : M St A :=
  fun s => match m (helperSt s) with
           | Ok a h => Ok a {| registry := registry s; events := events s;
                               helperSt := h |}
           | Panic msg => Panic msg
           end.

Definition PlatformIdentifier := helper.PlatformIdentifier (helperEnv E).

(** [log.SetLogLevel], [log.Start] and the message printed when logging
    does not start. *)
Definition startLogging : M St unit :=
  call LogSetLogLevel ;;;
  call LogStart ;;;
  match log_Start E with
  | Some e => call (Printf ("failed to start logging: " ++ e ++ String "010" ""))
  | None => ret tt
  end.

(** [defer log.Shutdown()] around the rest of a function. *)
Definition deferShutdown {A} (body : M St A) : M St A :=
  r <- body ;;
  call LogShutdown ;;;
  ret r.

(** The part of [downloadUpdates] under the deferred shutdown. *)
Definition downloadUpdatesBody : M St error :=
  storageErr <-
    (if reset E then
       call (RemoveAll (storageDirPath E)) ;;;
       match os_RemoveAll E (storageDirPath E) with
       | Some e => ret (Some ("failed to reset update dir: " ++ e))
       | None =>
           call StorageDirEnsure ;;;
           match storageDir_Ensure E with
           | Some e => ret (Some ("failed to create update dir: " ++ e))
           | None => call RegistryReset ;;; ret None
           end
       end
     else ret None) ;;
  match (storageErr : error) with
  | Some e => ret (Some e)
  | None =>
      s <- get ;;
      call UpdateIndexes ;;;
      match registry_UpdateIndexes E (registry s) with
      | Some e => ret (Some e)
      | None =>
          call DownloadUpdates ;;;
          match registry_DownloadUpdates E (registry s) with
          | Some e => ret (Some e)
          | None =>
              call SelectVersions ;;;
              call UnpackResources ;;;
              match registry_UnpackResources E (registry s) with
              | Some e => ret (Some ("failed to unpack resources: " ++ e))
              | None =>
                  err <- inHelper (helper.EnsureChromeSandboxPermissions (helperEnv E)) ;;
                  match (err : error) with
                  | Some e => ret (Some ("failed to fix electron permissions: " ++ e))
                  | None => ret None
                  end
              end
          end
      end
  end.

Definition downloadUpdates : M St error :=
  (if onWindows E then
     setMandatoryUpdates
       [ PlatformIdentifier "core/portmaster-core.exe";
         PlatformIdentifier "kext/portmaster-kext.dll";
         PlatformIdentifier "kext/portmaster-kext.sys";
         PlatformIdentifier "start/portmaster-start.exe";
         PlatformIdentifier "notifier/portmaster-notifier.exe";
         PlatformIdentifier "notifier/portmaster-snoretoast.exe" ]
   else
     setMandatoryUpdates
       [ PlatformIdentifier "core/portmaster-core";
         PlatformIdentifier "start/portmaster-start";
         PlatformIdentifier "notifier/portmaster-notifier" ]) ;;;
  s <- get ;;
  setMandatoryUpdates
    (MandatoryUpdates (registry s)
     ++ [ PlatformIdentifier "app/portmaster-app.zip";
          "all/ui/modules/portmaster.zip" ])%list ;;;
  setAutoUnpack [ PlatformIdentifier "app/portmaster-app.zip" ] ;;;
  startLogging ;;;
  deferShutdown downloadUpdatesBody.

Definition purge : M St error :=
  call LogSetLogLevel ;;;
  call LogStart ;;;
  match log_Start E with
  | Some e => call (Printf ("failed to start logging: " ++ e ++ String "010" ""))
  | None => ret tt
  end ;;;
  deferShutdown (call (Purge 3) ;;; ret None).

End Command.

End updatecmd.

(** ** Package pmtesting (core/pmtesting) *)

Module pmtesting.

Local Open Scope go_scope.

Definition error : Type := option string.

(** What [TestMain] does, latest first. *)
Inductive event : Type :=
| ModuleEnable
| SetDefaultDatabaseStorageType (t : string)
| SetDefaultAPIListenAddress (a : string)
| SetLogLevel
| DatarootInitialize (dir : string) (perm : Z)
| Stderr (msg : string)
| Println (msg : string)
| WriteProfile (name : string)
| ModulesStart
| RunTests
| ModulesShutdown
| Remove (path : string)
| RemoveAll (path : string)
| Exit (code : Z).

Record Env : Type := {
  printStackOnExit : bool;
  os_TempDir : string;
  filepath_Join : list string -> string;
  dataroot_Initialize : string -> Z -> error;
  modules_Start : error;
  (** the exit code of [m.Run()] *)
  m_Run : Z;
  (** [modules.GetExitStatusCode()], read twice after the shutdown and
      taken to answer the same both times *)
  modules_GetExitStatusCode : Z;
  (** how [fmt] prints a possibly nil error with the verb s *)
  showError : error -> string
}.

Definition St : Type := list event.

Section Testing.
Variable E : Env.

Definition call (e : event) : M St unit := modify (fun s => e :: s).

Definition printStack : M St unit :=
  if printStackOnExit E then
    call (Println "=== PRINTING TRACES ===") ;;;
    call (Println "=== GOROUTINES ===") ;;;
    call (WriteProfile "goroutine") ;;;
    call (Println "=== BLOCKING ===") ;;;
    call (WriteProfile "block") ;;;
    call (Println "=== MUTEXES ===") ;;;
    call (WriteProfile "mutex") ;;;
    call (Println "=== END TRACES ===")
  else ret tt.

(** [TestMain] ends in [os.Exit]; the model returns the exit code. *)
Definition TestMain : M St Z :=
  call ModuleEnable ;;;
  call (SetDefaultDatabaseStorageType "hashmap") ;;;
  call (SetDefaultAPIListenAddress "127.0.0.1:10817") ;;;
  call SetLogLevel ;;;
  let tmpDir := filepath_Join E [os_TempDir E; "portmaster-testing"] in
  call (DatarootInitialize tmpDir 493) ;;;
  match dataroot_Initialize E tmpDir 493 with
  | Some e =>
      call (Stderr ("failed to initialize data root: " ++ e ++ String "010" "")) ;;;
      call (Exit 1) ;;;
      ret 1
  | None =>
      call ModulesStart ;;;
      let err := modules_Start E in
      exitCode <- match err with
                  | Some e =>
                      call (Stderr ("failed to setup test: " ++ e ++ String "010" "")) ;;;
                      ret 1
                  | None => call RunTests ;;; ret (m_Run E)
                  end ;;
      call ModulesShutdown ;;;
      exitCode <- (if negb (modules_GetExitStatusCode E =? 0) then
                     call (Stderr ("failed to cleanly shutdown test: "
                                   ++ showError E err ++ String "010" "")) ;;;
                     ret (modules_GetExitStatusCode E)
                   else ret (exitCode : Z)) ;;
      printStack ;;;
      call (Remove (filepath_Join E [tmpDir; "config.json"])) ;;;
      call (Remove (filepath_Join E [tmpDir; "databases.json"])) ;;;
      call (RemoveAll (filepath_Join E [tmpDir; "databases"])) ;;;
      call (Exit exitCode) ;;;
      ret (exitCode : Z)
  end.

End Testing.

End pmtesting.

(** ** Concrete environments, profiles and connections *)

Module examples.

Import firewall.

Definition cfgKeys : profile.CfgKeys :=
  {| profile.CfgOptionDefaultActionKey := "default-action";
     profile.CfgOptionServiceEndpointsKey := "service-endpoints";
     profile.CfgOptionEndpointsKey := "endpoints";
     profile.CfgOptionBlockInboundKey := "block-inbound";
     profile.CfgOptionBlockP2PKey := "block-p2p";
     profile.CfgOptionBlockScopeInternetKey := "block-scope-internet";
     profile.CfgOptionBlockScopeLANKey := "block-scope-lan";
     profile.CfgOptionBlockScopeLocalKey := "block-scope-local";
     profile.CfgOptionPreventBypassingKey := "prevent-bypassing";
     profile.CfgOptionFilterListsKey := "filter-lists";
     profile.CfgOptionRemoveOutOfScopeDNSKey := "remove-out-of-scope-dns";
     profile.CfgOptionDomainHeuristicsKey := "domain-heuristics";
     profile.CfgOptionDisableAutoPermitKey := "disable-auto-permit" |}.

Definition noReason : endpoints.Reason :=
  {| endpoints.Reason_String := ""; endpoints.Reason_Context := [] |}.

(** A quiet environment: Portmaster is PID 4242, no peer is found, the
    network is online, nothing matches the bypass rules, every pair of
    strings is a perfect Levenshtein match, profiles are up to date and
    prompts are not answered. [etld1] and the two scores are left to the
    example. *)
Definition env (etld1 : string -> option string) (lms lmsOfDomain : string -> Q) : Env :=
  {| ownPID := 4242;
     state_Lookup := fun _ _ => None;
     process_GetOrFindProcess := fun _ => None;
     netenv_GetOnlineStatus := netenv.StatusOnline;
     netenv_IsConnectivityDomain := fun _ => false;
     PreventBypassing := fun _ => (endpoints.NoMatch, "", []);
     publicsuffix_EffectiveTLDPlusOne := etld1;
     dga_LmsScore := lms;
     dga_LmsScoreOfDomain := lmsOfDomain;
     levenshtein_Match := fun _ _ => 1%Q;
     profile_NeedsUpdate := fun _ => false;
     profile_recompose := fun lp => lp;
     promptAnswer := fun _ _ => None;
     keys := cfgKeys |}.

Definition quiet : Env := env (fun _ => None) (fun _ => 100%Q) (fun _ => 100%Q).

(** A profile that blocks nothing on its own: only the default action
    and the three switches given decide. *)
Definition openProfile (action : profile.DefaultAction_t)
    (removeOutOfScopeDNS domainHeuristics : bool) (rev : N) : profile.LayeredProfile :=
  {| profile.BlockInbound := false; profile.BlockP2P := false;
     profile.BlockScopeInternet := false; profile.BlockScopeLAN := false;
     profile.BlockScopeLocal := false; profile.PreventBypassing := false;
     profile.DomainHeuristics := domainHeuristics;
     profile.DisableAutoPermit := false;
     profile.RemoveOutOfScopeDNS := removeOutOfScopeDNS;
     profile.DefaultAction := action;
     profile.RevisionCounter := rev;
     profile.MatchEndpoint := fun _ => (endpoints.NoMatch, noReason);
     profile.MatchServiceEndpoint := fun _ => (endpoints.NoMatch, noReason);
     profile.MatchFilterLists := fun _ => (endpoints.NoMatch, noReason) |}.

Definition proc (pid : Z) (path name execName : string) (resolver : bool)
    (lp : option profile.LayeredProfile) : process.Process :=
  {| process.Pid := pid; process.Path := path; process.Name := name;
     process.ExecName := execName; process.IsSystemResolver := resolver;
     process.Profile := lp |}.

Definition chrome (lp : option profile.LayeredProfile) : process.Process :=
  proc 1234 "/opt/google/chrome/google-chrome" "chrome" "google-chrome" false lp.

Definition entityOf (domain : string) (scope : netutils.IPScope) : intel.Entity :=
  {| intel.Domain := domain; intel.IP := None; intel.IPScope := scope;
     intel.Lists := [] |}.

(** An outbound, undecided connection at revision [rev]. *)
Definition outbound (t : network.ConnType) (e : option intel.Entity)
    (p : process.Process) (r : option network.ResolverInfo) (rev : N)
    : network.Connection :=
  {| network.Type_ := t; network.Inbound := false; network.Entity := e;
     network.Process := p; network.Resolver := r;
     network.Verdict_ := network.VerdictUndecided; network.ReasonMsg := "";
     network.ReasonOptionKey := ""; network.ReasonContext := [];
     network.ProfileRevisionCounter := rev; network.Internal := false;
     network.saveWhenFinished := false |}.

Definition fresh (c : network.Connection) : St := {| conn := c; called := [] |}.

(** Scenario 6 of the specification: mail.google.com from google-chrome,
    default action Block, auto permit not disabled. *)
Definition scenario6 : network.Connection :=
  outbound network.DNSRequest (Some (entityOf "mail.google.com" netutils.Global))
           (chrome (Some (openProfile profile.DefaultActionBlock false false 7))) None 7.

(** A label of [n] letters a. *)
Fixpoint letters (n : nat) : string :=
  match n with
  | O => ""
  | S n' => String "a" (letters n')
  end.

(** A domain with a subdomain of 101 bytes under example.com. *)
Definition tunnelDomain : string := letters 101 ++ ".example.com".

(** An environment in which example.com is the eTLD+1 of every domain,
    every label has an LMS score of 100, and the LMS score of a domain
    is 50 for the eleven letters a and 0 for anything else. *)
Definition tunnelEnv : Env :=
  env (fun _ => Some "example.com") (fun _ => 100%Q)
      (fun s => if String.eqb s (letters 11) then 50%Q else 0%Q).

(** A filterlists environment: the cache version and the error of
    loading the cache are given; the filter counts its loads; every hook
    registers; an update closes the loaded signal if it is still open. *)
Definition listsEnv (version : string + string) (loadErr : filterlists.error)
    (online : bool) : filterlists.Env nat :=
  {| filterlists.updates_ModuleName := "updates";
     filterlists.updates_ResourceUpdateEvent := "resource update";
     filterlists.netenv_OnlineStatusChangedEvent := "online status changed";
     filterlists.netenv_Online := online;
     filterlists.RegisterEventHook_err := fun _ _ => None;
     filterlists.getCacheDatabaseVersion := version;
     filterlists.loadFromCache := fun n => (S n, loadErr);
     filterlists.tryListUpdate := fun v =>
       Ok None
          {| filterlists.ignoreUpdateEvents := filterlists.ignoreUpdateEvents v;
             filterlists.ignoreNetEnvEvents := filterlists.ignoreNetEnvEvents v;
             filterlists.module := filterlists.module v;
             filterlists.hooks := filterlists.hooks v;
             filterlists.chans :=
               <[filterlists.filterListsLoaded v := true]> (filterlists.chans v);
             filterlists.filterListsLoaded := filterlists.filterListsLoaded v;
             filterlists.defaultFilter := filterlists.defaultFilter v;
             filterlists.warnings := filterlists.warnings v |} |}.

(** A Linux machine on which unprivileged user namespaces are as the file
    says, the registry knows the app archive, and chmod succeeds. *)
Definition linuxBox (usernsClone : string + string) (upgrade : bool) : helper.Env :=
  {| helper.GOOS := "linux";
     helper.GOARCH := "amd64";
     helper.filepath_Join := fun parts => String.concat "/" parts;
     helper.ioutil_ReadFile := fun _ => usernsClone;
     helper.reg_GetFile := fun _ =>
       (Some {| helper.Path := "/opt/updates/linux_amd64/app/portmaster-app_v0-2-3.zip" |},
        None);
     helper.UpgradeAvailable := fun _ => upgrade;
     helper.os_Chmod := fun _ _ => None;
     helper.os_ModeSetuid := 8388608 |}.

Definition noHelperState : helper.St :=
  {| helper.pmElectronUpdate := None; helper.effects := [] |}.

(** An update command on that machine where every step succeeds. *)
Definition updateEnv (windows reset : bool) (indexes : updatecmd.error) : updatecmd.Env :=
  {| updatecmd.onWindows := windows;
     updatecmd.reset := reset;
     updatecmd.log_Start := None;
     updatecmd.storageDirPath := "/opt/updates";
     updatecmd.os_RemoveAll := fun _ => None;
     updatecmd.storageDir_Ensure := None;
     updatecmd.registry_UpdateIndexes := fun _ => indexes;
     updatecmd.registry_DownloadUpdates := fun _ => None;
     updatecmd.registry_UnpackResources := fun _ => None;
     updatecmd.helperEnv := linuxBox (inl ("0" ++ String "010" "")) false |}.

Definition noUpdateState : updatecmd.St :=
  {| updatecmd.registry := {| updatecmd.MandatoryUpdates := ["stale"];
                              updatecmd.AutoUnpack := ["stale"] |};
     updatecmd.events := [];
     updatecmd.helperSt := noHelperState |}.

(** A test run: the data root initialises, the modules start as given,
    the tests and the shutdown end with the codes given. *)
Definition testEnv (start : pmtesting.error) (run status : Z) : pmtesting.Env :=
  {| pmtesting.printStackOnExit := false;
     pmtesting.os_TempDir := "/tmp";
     pmtesting.filepath_Join := fun parts => String.concat "/" parts;
     pmtesting.dataroot_Initialize := fun _ _ => None;
     pmtesting.modules_Start := start;
     pmtesting.m_Run := run;
     pmtesting.modules_GetExitStatusCode := status;
     pmtesting.showError := fun e => match e with Some m => m | None => "%!s(<nil>)" end |}.

Definition tunnelConn : network.Connection :=
  outbound network.DNSRequest (Some (entityOf tunnelDomain netutils.Global))
           (chrome (Some (openProfile profile.DefaultActionPermit false true 7))) None 7.

End examples.

(** ** Vocabulary of the properties *)

Import firewall.

(** The part of a connection the deciders read. *)
Definition sameInputs (c c' : network.Connection) : Prop :=
  network.Type_ c = network.Type_ c'
  /\ network.Inbound c = network.Inbound c'
  /\ network.Entity c = network.Entity c'
  /\ network.Process c = network.Process c'
  /\ network.Resolver c = network.Resolver c'.

(** The verdict and its reason. *)
Definition sameVerdict (c c' : network.Connection) : Prop :=
  network.Verdict_ c = network.Verdict_ c'
  /\ network.ReasonMsg c = network.ReasonMsg c'
  /\ network.ReasonOptionKey c = network.ReasonOptionKey c'
  /\ network.ReasonContext c = network.ReasonContext c'.

(** The bookkeeping no decider touches. *)
Definition sameBookkeeping (c c' : network.Connection) : Prop :=
  network.ProfileRevisionCounter c = network.ProfileRevisionCounter c'
  /\ network.saveWhenFinished c = network.saveWhenFinished c'.

(** An external function does not read what the decision writes. *)
Definition readsInputsOnly {A} (f : network.Connection -> A) : Prop :=
  forall c c', sameInputs c c' -> f c = f c'.

(** Two runs of one computation agree: both panic, or both return the same
    value; when [concluded] holds of it they leave the same verdict, and
    otherwise they leave their connections as they were. *)
Definition agree {A} (concluded : A -> bool) (c c' : network.Connection)
    (r r' : Res network.Connection A) : Prop :=
  match r, r' with
  | Ok a d, Ok a' d' =>
      a = a'
      /\ sameInputs c d /\ sameBookkeeping c d
      /\ sameInputs c' d' /\ sameBookkeeping c' d'
      /\ if concluded a then sameVerdict d d' else d = c /\ d' = c'
  | Panic _, Panic _ => True
  | _, _ => False
  end.

(** The connection a run on [St] ends with. *)
Definition connOf {A} (r : Res St A) : Res network.Connection A :=
  match r with
  | Ok a s => Ok a (conn s)
  | Panic msg => Panic msg
  end.

(** What [DecideOnConnection] does once the profile is up to date (lines
    207 to 235). *)
Definition afterRevision (E : Env) (layeredProfile : profile.LayeredProfile)
    (pkt : option packet.Packet) : M St unit :=
  (c <- inConn getConn ;;
   match network.Type_ c, process.IsSystemResolver (network.Process c) with
   | network.DNSRequest, true =>
       r <- runDeciders E dnsFromSystemResolverDeciders layeredProfile pkt ;;
       if negb (fst r) then
         inConn (Accept "allowing system resolver dns request" noReasonOptionKey)
       else ret tt
   | _, _ =>
       r <- runDeciders E defaultDeciders layeredProfile pkt ;;
       let '(done, defaultAction) := r in
       if (done : bool) then ret tt
       else match defaultAction with
            | profile.DefaultActionPermit =>
                inConn (Accept "allowed by default action"
                               (profile.CfgOptionDefaultActionKey (keys E)))
            | profile.DefaultActionAsk => inConn (prompt E pkt)
            | _ =>
                inConn (Deny "blocked by default action"
                             (profile.CfgOptionDefaultActionKey (keys E)))
            end
   end)%go.

(** The revision step returns, with the connection's counter at the
    profile's and the profile stored in the process; of the inputs of the
    deciders it changes the profile and the matched lists of the entity
    only. *)
Definition revised (c : network.Connection) (lp' : profile.LayeredProfile)
    (c1 : network.Connection) : Prop :=
  network.ProfileRevisionCounter c1 = profile.RevisionCnt lp'
  /\ (forall lp, process.Profile (network.Process c) = Some lp ->
                 process.Profile (network.Process c1) = Some lp')
  /\ network.Type_ c1 = network.Type_ c
  /\ network.Inbound c1 = network.Inbound c
  /\ network.Resolver c1 = network.Resolver c
  /\ process.IsSystemResolver (network.Process c1)
     = process.IsSystemResolver (network.Process c)
  /\ process.Pid (network.Process c1) = process.Pid (network.Process c)
  /\ intel.IPScope <$> network.Entity c1 = intel.IPScope <$> network.Entity c
  /\ intel.Domain <$> network.Entity c1 = intel.Domain <$> network.Entity c.

(** A verdict a setter of the deciders leaves. *)
Definition decided (v : network.Verdict) : bool :=
  match v with
  | network.VerdictAccept | network.VerdictBlock
  | network.VerdictDrop | network.VerdictDeny => true
  | _ => false
  end.

(** [r] is [c] after one verdict setter, and possibly the Internal mark
    that goes with an Accept. *)
Definition setBy (c r : network.Connection) : Prop :=
  exists v msg key rctx,
    decided v = true
    /\ (r = network.withVerdict v msg key rctx c
        \/ (v = network.VerdictAccept
            /\ r = network.withInternal true (network.withVerdict v msg key rctx c))).

(** Whether the connection takes the pipeline of the system resolver. *)
Definition viaSystemResolver (c : network.Connection) : bool :=
  match network.Type_ c, process.IsSystemResolver (network.Process c) with
  | network.DNSRequest, true => true
  | _, _ => false
  end.

(** The deciders [DecideOnConnection] selects for a connection. *)
Definition pipelineOf (c : network.Connection) : list deciderName :=
  if viaSystemResolver c then dnsFromSystemResolverDeciders else defaultDeciders.

(** What the default action makes of a connection no decider concluded
    on. *)
Definition byDefaultAction (E : Env) (lp : profile.LayeredProfile)
    (pkt : option packet.Packet) (c : network.Connection) : network.Connection :=
  match profile.DefaultAction lp with
  | profile.DefaultActionPermit =>
      network.withVerdict network.VerdictAccept "allowed by default action"
        (profile.CfgOptionDefaultActionKey (keys E)) [] c
  | profile.DefaultActionAsk =>
      match promptAnswer E c pkt with
      | Some a =>
          network.withVerdict (callVerdict a) (callReason a) (callOptionKey a) [] c
      | None => c
      end
  | _ =>
      network.withVerdict network.VerdictDeny "blocked by default action"
        (profile.CfgOptionDefaultActionKey (keys E)) [] c
  end.

(** What identifies a connection: its type, direction and resolver, the
    process apart from its profile, and the entity apart from its matched
    lists. *)
Definition sameIdentity (c c' : network.Connection) : Prop :=
  network.Type_ c = network.Type_ c'
  /\ network.Inbound c = network.Inbound c'
  /\ network.Resolver c = network.Resolver c'
  /\ process.Pid (network.Process c) = process.Pid (network.Process c')
  /\ process.Path (network.Process c) = process.Path (network.Process c')
  /\ process.Name (network.Process c) = process.Name (network.Process c')
  /\ process.ExecName (network.Process c) = process.ExecName (network.Process c')
  /\ process.IsSystemResolver (network.Process c)
     = process.IsSystemResolver (network.Process c')
  /\ (fun e => (intel.Domain e, intel.IP e, intel.IPScope e)) <$> network.Entity c
     = (fun e => (intel.Domain e, intel.IP e, intel.IPScope e)) <$> network.Entity c'.

(** [publicsuffix.EffectiveTLDPlusOne] answers with a suffix of the domain:
    at least, with nothing longer. *)
Definition etld1NotLonger (E : Env) : Prop :=
  forall domain etld1,
    publicsuffix_EffectiveTLDPlusOne E domain = Some etld1 ->
    (String.length etld1 <= String.length domain)%nat.

(** Whether the kernel allows unprivileged user namespaces, as
    [checkSysctl] reads it: the first byte of the sysctl file is 1. *)
Definition usernsCloneEnabled (E : helper.Env) : bool :=
  match helper.ioutil_ReadFile E
          (helper.filepath_Join E ["/proc"; "sys"; "kernel"; "unprivileged_userns_clone"]) with
  | inl (String c _) => Ascii.eqb c "1"
  | _ => false
  end.

(** Whether [EnsureChromeSandboxPermissions] has anything to do. *)
Definition sandboxFixNeeded (E : helper.Env) (s : helper.St) : bool :=
  String.eqb (helper.GOOS E) "linux"
  && negb (usernsCloneEnabled E)
  && match helper.pmElectronUpdate s with
     | Some f => helper.UpgradeAvailable E f
     | None => true
     end.

Definition isChmodOrGetFile (e : helper.effect) : bool :=
  match e with
  | helper.ReadFile _ => false
  | _ => true
  end.

(** The signal [filterListsLoaded] refers to a channel that exists. *)
Definition validSignal {A} (v : filterlists.State A) : Prop :=
  (filterlists.filterListsLoaded v < List.length (filterlists.chans v))%nat.



(** ** Tactics *)

(** Unfolding of the monad and of the primitives on the connection. *)
Ltac go_unfold :=
  cbv beta iota delta
    [bind ret get modify panic onConn getConn entity inConn logCall
     Accept Block Drop Deny AcceptWithContext BlockWithContext
     DropWithContext DenyWithContext SetVerdict SaveWhenFinished] in *.

(** Case analysis on whatever the code branches on. *)
Ltac branch :=
  match goal with
  | |- context [match ?x with _ => _ end] =>
      lazymatch x with
      | context [match _ with _ => _ end] => fail
      | _ => destruct x eqn:?
      end
  end.

Ltac decider_auto :=
  go_unfold; cbn [network.Type_ network.Inbound network.Entity network.Process
                  network.Resolver network.withVerdict network.withInternal] in *;
  repeat (branch; cbn [network.Type_ network.Inbound network.Entity network.Process
                       network.Resolver network.withVerdict network.withInternal
                       fst snd] in *;
          try discriminate);
  repeat split; auto; try congruence.

Ltac lists_unfold :=
  cbv beta iota delta
    [bind ret get modify panic
     filterlists.onVars filterlists.getVars filterlists.makeChan filterlists.closeChan
     filterlists.setFilterListsLoaded filterlists.module_Warning
     filterlists.module_RegisterEventHook filterlists.call_tryListUpdate
     filterlists.init filterlists.resourceUpdateHandler
     filterlists.onlineStatusChangedHandler filterlists.handler filterlists.prep
     filterlists.warnAboutDisabledFilterLists filterlists.defaultFilter_loadFromCache
     filterlists.start filterlists.stop filterlists.step] in *;
  cbn [filterlists.vars filterlists.listUpdates filterlists.ignoreUpdateEvents
       filterlists.ignoreNetEnvEvents filterlists.chans filterlists.filterListsLoaded
       filterlists.defaultFilter filterlists.warnings filterlists.hooks
       filterlists.module] in *.

(** The ways a concrete list splits as [pre ++ d :: post]. *)
Ltac split_cases Heq pre :=
  destruct pre as [| ? pre];
  [ first [ injection Heq as <- <- | discriminate Heq ]
  | first [ discriminate Heq | injection Heq as <- Heq; split_cases Heq pre ] ].

(** The elements of [l] in front of its tail [base]. *)
Ltac prefix_of T l base :=
  lazymatch l with
  | base => constr:(@nil T)
  | ?x :: ?r => let p := prefix_of T r base in constr:(x :: p)
  end.

Ltac cmd_unfold :=
  cbv beta iota zeta delta
    [bind ret get modify panic updatecmd.call updatecmd.setMandatoryUpdates
     updatecmd.setAutoUnpack updatecmd.inHelper updatecmd.startLogging
     updatecmd.deferShutdown updatecmd.downloadUpdatesBody updatecmd.downloadUpdates
     updatecmd.purge] in *;
  cbn [updatecmd.registry updatecmd.events updatecmd.helperSt
       updatecmd.MandatoryUpdates updatecmd.AutoUnpack] in *.

Ltac helper_unfold :=
  cbv beta iota zeta delta
    [bind ret get modify panic helper.perform helper.setElectronUpdate helper.sysctl
     helper.checkSysctl helper.EnsureChromeSandboxPermissions] in *.

Ltac testing_unfold :=
  cbv beta iota zeta delta
    [bind ret get modify panic pmtesting.call pmtesting.printStack pmtesting.TestMain] in *.

Ltac testing_run :=
  cbv zeta; testing_unfold;
  repeat (branch; try discriminate);
  eexists;
  match goal with
  | |- exists new, Ok _ (_ :: ?l) = Ok _ (_ :: new ++ ?base)%list /\ _ =>
      let p := prefix_of pmtesting.event l base in exists p
  end;
  (split; [reflexivity |]);
  repeat match goal with
         | Hb : negb (_ =? 0) = _ |- _ =>
             first [ apply negb_true_iff in Hb; apply Z.eqb_neq in Hb
                   | apply negb_false_iff in Hb; apply Z.eqb_eq in Hb ]
         end;
  cbn [In]; unfold not, iff; repeat split; intros;
  repeat match goal with
         | Hin : _ \/ _ |- _ => destruct Hin as [Hin | Hin]
         | Hin : _ /\ _ |- _ => destruct Hin
         | Hin : False |- _ => destruct Hin
         | Hin : @eq pmtesting.event _ _ |- _ =>
             first [discriminate Hin | injection Hin as <-]
         end;
  try congruence; try lia; auto; try tauto.

(** ** Properties *)

(** *** checkRelation *)

Lemma checkRelation_domain E c e :
  network.Entity c = Some e -> intel.Domain e <> "" ->
  checkRelation E c = Ok (false, "") c.
Proof.
  intros He Hd. unfold checkRelation. go_unfold. rewrite He.
  destruct (String.eqb_spec (intel.Domain e) ""); [contradiction | reflexivity].
Qed.

Lemma checkAutoPermitRelated_domain E p pkt c e :
  network.Entity c = Some e -> intel.Domain e <> "" ->
  checkAutoPermitRelated E p pkt c = Ok false c.
Proof.
  intros He Hd. unfold checkAutoPermitRelated.
  destruct (profile.DefaultAction p); try reflexivity;
    (destruct (profile.DisableAutoPermit p); [reflexivity |]);
    unfold bind; cbv beta; rewrite (checkRelation_domain E c e He Hd); reflexivity.
Qed.

Example Split_domain :
  strings.Split "mail.google.com" "." = ["mail"; "google"; "com"].
Proof. reflexivity. Qed.

Example Split_empty : strings.Split "" "." = [""].
Proof. reflexivity. Qed.

Example TrimRight_dots : strings.TrimRight "a.b.." "." = "a.b".
Proof. reflexivity. Qed.

(** The loop itself finds the first pair that matches: with every
    comparison a perfect match, the first label and the first of the last
    two path segments. *)
Example matchLoop_first_pair :
  matchLoop examples.quiet ["mail"; "google"; "com"] ["chrome"; "google-chrome"]
            (examples.chrome None)
  = Some ("mail", "chrome").
Proof. reflexivity. Qed.

(** Only a connection without a domain reaches the loop. *)
Example checkRelation_empty_domain :
  let c := examples.outbound network.IPConnection
             (Some (examples.entityOf "" netutils.Global))
             (examples.chrome None) None 0 in
  checkRelation examples.quiet c
  = Ok (true, "auto allowed: domain is related to process:  is related to chrome") c.
Proof. reflexivity. Qed.

(** C1. In scenario 6 (outbound to mail.google.com from a process whose
    path ends in google-chrome, default action Block, auto permit not
    disabled) every decider is called, [checkRelation] answers "not
    related" although every Levenshtein comparison of the environment is a
    perfect match, and the connection is not accepted: the default action
    denies it. *)
Theorem C1_scenario6_is_denied :
  checkRelation examples.quiet examples.scenario6 = Ok (false, "") examples.scenario6
  /\ exists s',
       DecideOnConnection examples.quiet None (examples.fresh examples.scenario6) = Ok tt s'
       /\ called s' = rev (defaultDeciders)
       /\ network.Verdict_ (conn s') = network.VerdictDeny
       /\ network.ReasonMsg (conn s') = "blocked by default action".
Proof.
  split; [reflexivity |].
  eexists. split; [vm_compute; reflexivity |]. repeat split.
Qed.

(** *** The nil profile *)

(** C5. When the connection's process has no layered profile,
    [DecideOnConnection] returns with the verdict Deny, the reason
    "unknown process or profile" and no option key; nothing else of the
    connection changes and no decider is called. *)
Theorem C5_nil_profile_is_denied E pkt s :
  process.Profile (network.Process (conn s)) = None ->
  DecideOnConnection E pkt s =
    Ok tt {| conn := network.withVerdict network.VerdictDeny
                       "unknown process or profile" "" [] (conn s);
             called := called s |}.
Proof.
  intros H. unfold DecideOnConnection. go_unfold. simpl. rewrite H. reflexivity.
Qed.

Lemma C5_nil_profile_witness :
  let c := examples.outbound network.IPConnection None
             (examples.proc (-1) "" "" "" false None) None 0 in
  process.Profile (network.Process c) = None
  /\ DecideOnConnection examples.quiet None (examples.fresh c) =
       Ok tt {| conn := network.withVerdict network.VerdictDeny
                          "unknown process or profile" "" [] c;
                called := [] |}.
Proof.
  split; [reflexivity |].
  apply (C5_nil_profile_is_denied examples.quiet None (examples.fresh _)). reflexivity.
Defined.

(** *** What a decider reads and what it writes *)

Lemma sameInputs_refl c : sameInputs c c.
Proof. repeat split. Qed.

Lemma sameInputs_sym c c' : sameInputs c c' -> sameInputs c' c.
Proof. intros (? & ? & ? & ? & ?). repeat split; congruence. Qed.

Lemma sameInputs_trans c c' c'' :
  sameInputs c c' -> sameInputs c' c'' -> sameInputs c c''.
Proof. intros (? & ? & ? & ? & ?) (? & ? & ? & ? & ?). repeat split; congruence. Qed.

Lemma sameBookkeeping_trans c c' c'' :
  sameBookkeeping c c' -> sameBookkeeping c' c'' -> sameBookkeeping c c''.
Proof. intros (? & ?) (? & ?). split; congruence. Qed.

(** Any two connections with the same inputs, on which the bypass rules
    answer the same, take a decider the same way. *)
Lemma decider_agree E d lp pkt c c' :
  sameInputs c c' ->
  PreventBypassing E c = PreventBypassing E c' ->
  agree (fun b => b) c c' (decider E d lp pkt c) (decider E d lp pkt c').
Proof.
  intros Hin Hpb.
  destruct c, c'. destruct Hin as (Ht & Hi & He & Hp & Hr).
  cbn in Ht, Hi, He, Hp, Hr. subst.
  unfold agree.
  destruct d; cbv delta [decider checkPortmasterConnection checkSelfCommunication
    checkConnectionType checkConnectionScope checkEndpointLists checkResolverScope
    checkConnectivityDomain checkBypassPrevention checkFilterLists dropInbound
    checkDomainHeuristics checkAutoPermitRelated checkRelation strings.slice0];
    go_unfold; try rewrite Hpb.
  all: decider_auto.
  all: inversion Hpb; subst; reflexivity.
Qed.

(** A decider leaves the inputs and the bookkeeping alone, and a decider
    that does not conclude leaves the whole connection alone. *)
Lemma decider_frame E d lp pkt c b r :
  decider E d lp pkt c = Ok b r ->
  sameInputs c r /\ sameBookkeeping c r /\ (b = false -> r = c).
Proof.
  intros H.
  pose proof (decider_agree E d lp pkt c c (sameInputs_refl c) eq_refl) as Ha.
  unfold agree in Ha. rewrite H in Ha.
  destruct Ha as (_ & Hi & Hb & _ & _ & Hv).
  repeat split; try apply Hi; try apply Hb.
  intros ->. apply Hv.
Qed.

Lemma runDeciders_agree E ds lp pkt : forall s s',
  sameInputs (conn s) (conn s') ->
  PreventBypassing E (conn s) = PreventBypassing E (conn s') ->
  agree fst (conn s) (conn s')
        (connOf (runDecidersLoop E ds lp pkt s))
        (connOf (runDecidersLoop E ds lp pkt s')).
Proof.
  induction ds as [| d rest IH]; intros s s' Hin Hpb.
  - cbn. repeat split; try apply sameInputs_refl.
  - cbn [runDecidersLoop]. go_unfold. cbn [conn called].
    pose proof (decider_agree E d lp pkt (conn s) (conn s') Hin Hpb) as Hd.
    unfold agree in Hd.
    destruct (decider E d lp pkt (conn s)) as [b c1 |];
      destruct (decider E d lp pkt (conn s')) as [b' c1' |]; try contradiction.
    + destruct Hd as (-> & Hi & Hb & Hi' & Hb' & Hv). destruct b'.
      * cbn. repeat split; try apply Hi; try apply Hb; try apply Hi'; try apply Hb';
          apply Hv.
      * destruct Hv as [-> ->].
        apply (IH {| conn := conn s; called := d :: called s |}
                  {| conn := conn s'; called := d :: called s' |}); assumption.
    + exact I.
Qed.

Lemma runDeciders_frame E ds lp pkt s a r :
  runDecidersLoop E ds lp pkt s = Ok a r ->
  sameInputs (conn s) (conn r) /\ sameBookkeeping (conn s) (conn r)
  /\ (fst a = false -> conn r = conn s).
Proof.
  intros H.
  pose proof (runDeciders_agree E ds lp pkt s s (sameInputs_refl _) eq_refl) as Ha.
  unfold agree in Ha. rewrite H in Ha. cbn in Ha.
  destruct Ha as (_ & Hi & Hb & _ & _ & Hv).
  repeat split; try apply Hi; try apply Hb.
  intros Hf. rewrite Hf in Hv. apply Hv.
Qed.

(** The log of a run of deciders: the deciders called are a prefix of the
    selected ones, all of them when none concluded, and then the default
    action returned is the profile's. *)
Lemma runDeciders_called E ds lp pkt : forall s a r,
  runDecidersLoop E ds lp pkt s = Ok a r ->
  exists l, called r = (rev l ++ called s)%list
            /\ l `prefix_of` ds
            /\ (fst a = false -> l = ds /\ snd a = profile.DefaultAction lp).
Proof.
  induction ds as [| d rest IH]; intros s a r H.
  - cbn in H. injection H as <- <-. exists []. repeat split. apply prefix_nil.
  - cbn [runDecidersLoop] in H. go_unfold. cbn [conn called] in H.
    destruct (decider E d lp pkt (conn s)) as [b c1 |]; [| discriminate].
    destruct b.
    + injection H as <- <-. exists [d]. cbn. repeat split; try discriminate.
      apply prefix_cons, prefix_nil.
    + apply IH in H. destruct H as (l & Hc & Hp & Hf). cbn in Hc.
      exists (d :: l). cbn. rewrite <- app_assoc. cbn. repeat split.
      * exact Hc.
      * apply prefix_cons, Hp.
      * f_equal. apply Hf, H.
      * apply Hf, H.
Qed.

(** *** The shape of DecideOnConnection *)

Lemma DecideOnConnection_eq E pkt s :
  DecideOnConnection E pkt s =
  match process.Profile (network.Process (conn s)) with
  | None =>
      Ok tt {| conn := network.withVerdict network.VerdictDeny
                         "unknown process or profile" "" [] (conn s);
               called := called s |}
  | Some lp =>
      match updateProfileRevision E lp (conn s) with
      | Ok lp' c1 => afterRevision E lp' pkt {| conn := c1; called := called s |}
      | Panic msg => Panic msg
      end
  end.
Proof.
  destruct s as [c l].
  unfold DecideOnConnection, afterRevision, bind, inConn, getConn, get.
  cbn [conn called].
  destruct (process.Profile (network.Process c)) as [lp |]; [| reflexivity].
  cbn [conn called].
  destruct (updateProfileRevision E lp c); reflexivity.
Qed.

Lemma updateProfileRevision_returns E lp c :
  process.Profile (network.Process c) = Some lp ->
  exists lp' c1, updateProfileRevision E lp c = Ok lp' c1 /\ revised c lp' c1.
Proof.
  intros Hp. unfold updateProfileRevision, Update, revised. go_unfold.
  destruct (profile_NeedsUpdate E lp).
  - eexists _, _. split; [reflexivity |]. cbn.
    repeat split; destruct (network.Entity c); reflexivity.
  - destruct (N.eqb_spec (network.ProfileRevisionCounter c) (profile.RevisionCnt lp)) as [Heq | Hne];
      cbn; eexists _, _; (split; [reflexivity |]); cbn; repeat split; auto;
      intros lp0 H0; congruence.
Qed.

(** With nothing to update the revision step changes nothing. *)
Lemma updateProfileRevision_stable E lp c :
  profile_NeedsUpdate E lp = false ->
  network.ProfileRevisionCounter c = profile.RevisionCnt lp ->
  updateProfileRevision E lp c = Ok lp c.
Proof.
  intros Hn Hc. unfold updateProfileRevision. go_unfold. rewrite Hn, Hc.
  rewrite N.eqb_refl. reflexivity.
Qed.

Lemma withVerdict_frame v msg key rctx c :
  sameInputs c (network.withVerdict v msg key rctx c)
  /\ sameBookkeeping c (network.withVerdict v msg key rctx c).
Proof. repeat split. Qed.

Lemma prompt_cases E pkt c :
  match promptAnswer E c pkt with
  | Some a => prompt E pkt c =
                Ok tt (network.withVerdict (callVerdict a) (callReason a)
                                           (callOptionKey a) [] c)
  | None => prompt E pkt c = Ok tt c
  end.
Proof. unfold prompt. go_unfold. destruct (promptAnswer E c pkt); reflexivity. Qed.

(** After the revision step the inputs and the bookkeeping stay. *)
Lemma afterRevision_frame E lp pkt s r :
  afterRevision E lp pkt s = Ok tt r ->
  sameInputs (conn s) (conn r) /\ sameBookkeeping (conn s) (conn r).
Proof.
  destruct s as [c l].
  assert (Hset : forall v msg key (r0 : St),
            sameInputs c (conn r0) /\ sameBookkeeping c (conn r0) ->
            sameInputs c (network.withVerdict v msg key [] (conn r0))
            /\ sameBookkeeping c (network.withVerdict v msg key [] (conn r0))).
  { intros v msg key r0 [Hi Hb]. split.
    - eapply sameInputs_trans; [exact Hi | apply withVerdict_frame].
    - eapply sameBookkeeping_trans; [exact Hb | apply withVerdict_frame]. }
  unfold afterRevision, runDeciders, bind, inConn, getConn, get.
  cbn [conn called].
  destruct (network.Type_ c), (process.IsSystemResolver (network.Process c));
    (destruct (runDecidersLoop E _ lp pkt _) as [[done act] r0 |] eqn:Hr;
     [ apply runDeciders_frame in Hr; cbn [conn] in Hr;
       destruct Hr as (Hi & Hb & _)
     | discriminate ]);
    cbn [fst snd negb]; destruct done; cbn [negb].
  all: try (intros H; injection H as <-; split; assumption).
  all: try (unfold Accept, AcceptWithContext, SetVerdict, onConn, modify;
            intros H; injection H as <-; cbn [conn]; apply Hset; split; assumption).
  all: destruct act;
    try (unfold Accept, AcceptWithContext, Deny, DenyWithContext, SetVerdict, onConn, modify;
         intros H; injection H as <-; cbn [conn]; apply Hset; split; assumption).
  all: pose proof (prompt_cases E pkt (conn r0)) as Hp;
    destruct (promptAnswer E (conn r0) pkt); rewrite Hp;
    intros H; injection H as <-; cbn [conn];
    [ apply Hset | ]; split; assumption.
Qed.

(** Two connections with the same inputs take the pipeline and the default
    action the same way: both runs panic, or both return, and then they
    either end in the same verdict or leave their connections untouched
    (an unanswered prompt). *)
Lemma afterRevision_agree E lp pkt s s' :
  readsInputsOnly (PreventBypassing E) ->
  readsInputsOnly (fun c => promptAnswer E c pkt) ->
  sameInputs (conn s) (conn s') ->
  match afterRevision E lp pkt s, afterRevision E lp pkt s' with
  | Ok _ r, Ok _ r' =>
      sameVerdict (conn r) (conn r') \/ (conn r = conn s /\ conn r' = conn s')
  | Panic _, Panic _ => True
  | _, _ => False
  end.
Proof.
  intros Hpb Hpr Hin. destruct s as [c l], s' as [c' l']. cbn [conn] in Hin.
  assert (Hrun : forall ds,
            agree fst c c'
              (connOf (runDecidersLoop E ds lp pkt {| conn := c; called := l |}))
              (connOf (runDecidersLoop E ds lp pkt {| conn := c'; called := l' |}))).
  { intros ds. apply (runDeciders_agree E ds lp pkt
                        {| conn := c; called := l |} {| conn := c'; called := l' |});
      [exact Hin | apply Hpb, Hin]. }
  pose proof Hin as (Ht & _ & _ & Hp & _).
  unfold afterRevision, runDeciders, bind, inConn, getConn, get.
  cbn [conn called]. rewrite <- Ht, <- Hp.
  destruct (network.Type_ c), (process.IsSystemResolver (network.Process c));
    match goal with
    | |- context [runDecidersLoop E ?ds lp pkt _] => specialize (Hrun ds)
    end;
    unfold agree, connOf in Hrun;
    (destruct (runDecidersLoop E _ lp pkt {| conn := c; called := l |})
       as [[done act] r |];
     destruct (runDecidersLoop E _ lp pkt {| conn := c'; called := l' |})
       as [[done' act'] r' |]; try contradiction; try exact I);
    destruct Hrun as (Heq & Hi & _ & Hi' & _ & Hv);
    injection Heq as <- <-; cbn [fst snd negb] in *; destruct done; cbn [negb].
  all: try (left; exact Hv).
  all: destruct Hv as [Hr Hr'].
  all: try (left; repeat split).
  all: rewrite <- ?Hr, <- ?Hr'.
  all: destruct act; try (left; repeat split).
  all: pose proof (prompt_cases E pkt (conn r)) as Hq;
    pose proof (prompt_cases E pkt (conn r')) as Hq';
    rewrite <- (Hpr (conn r) (conn r')) in Hq'
      by (rewrite Hr, Hr'; exact Hin).
  all: destruct (promptAnswer E (conn r) pkt); rewrite Hq, Hq'; cbn [conn];
    [ left; repeat split | right; split; congruence ].
Qed.

(** *** The revision counter *)

(** C4. When the connection's process has a layered profile, then on
    return of [DecideOnConnection] the connection's revision counter is the
    [RevisionCnt] of the profile the process holds. When the profile needs
    no update and only the stored counter differs, the revision step
    returns the same profile, sets the counter, marks the connection to be
    saved and leaves the verdict, its reason and the entity as they were;
    the deciders then run on that connection. *)
Theorem C4_revision_counter E pkt s lp :
  process.Profile (network.Process (conn s)) = Some lp ->
  (forall s', DecideOnConnection E pkt s = Ok tt s' ->
     exists lp', process.Profile (network.Process (conn s')) = Some lp'
                 /\ network.ProfileRevisionCounter (conn s') = profile.RevisionCnt lp')
  /\ (profile_NeedsUpdate E lp = false ->
      network.ProfileRevisionCounter (conn s) <> profile.RevisionCnt lp ->
      exists c1,
        updateProfileRevision E lp (conn s) = Ok lp c1
        /\ network.ProfileRevisionCounter c1 = profile.RevisionCnt lp
        /\ network.saveWhenFinished c1 = true
        /\ sameVerdict (conn s) c1
        /\ network.Entity c1 = network.Entity (conn s)
        /\ DecideOnConnection E pkt s
           = afterRevision E lp pkt {| conn := c1; called := called s |}).
Proof.
  intros Hp. split.
  - intros s' H. rewrite DecideOnConnection_eq, Hp in H.
    destruct (updateProfileRevision_returns E lp (conn s) Hp)
      as (lp' & c1 & Hu & Hc & Hprof & _).
    rewrite Hu in H. apply afterRevision_frame in H. cbn [conn] in H.
    destruct H as [(_ & _ & _ & Hproc & _) (Hcnt & _)].
    exists lp'. split.
    + rewrite <- Hproc. apply (Hprof lp Hp).
    + rewrite <- Hcnt. exact Hc.
  - intros Hn Hne.
    exists (network.withSave (network.withRevision (profile.RevisionCnt lp) (conn s))).
    assert (Hu : updateProfileRevision E lp (conn s)
                 = Ok lp (network.withSave
                            (network.withRevision (profile.RevisionCnt lp) (conn s)))).
    { unfold updateProfileRevision. go_unfold. rewrite Hn.
      destruct (N.eqb_spec (network.ProfileRevisionCounter (conn s))
                           (profile.RevisionCnt lp)); [contradiction | reflexivity]. }
    split; [exact Hu |]. repeat split.
    rewrite DecideOnConnection_eq, Hp, Hu. reflexivity.
Qed.

Lemma C4_revision_counter_witness :
  let lp := examples.openProfile profile.DefaultActionBlock false false 7 in
  let c := examples.outbound network.DNSRequest
             (Some (examples.entityOf "example.com" netutils.Global))
             (examples.chrome (Some lp)) None 3 in
  process.Profile (network.Process c) = Some lp
  /\ (exists s', DecideOnConnection examples.quiet None (examples.fresh c) = Ok tt s'
                 /\ network.ProfileRevisionCounter (conn s') = 7%N)
  /\ exists c1, updateProfileRevision examples.quiet lp c = Ok lp c1
                /\ network.saveWhenFinished c1 = true
                /\ network.Verdict_ c1 = network.VerdictUndecided.
Proof.
  intros lp c.
  destruct (C4_revision_counter examples.quiet None (examples.fresh c) lp eq_refl)
    as [Hret Hstep].
  split; [reflexivity |]. split.
  - eexists. split; [vm_compute; reflexivity |].
    destruct (Hret _ ltac:(vm_compute; reflexivity)) as (lp' & Hlp & Hcnt).
    vm_compute in Hlp. injection Hlp as <-. exact Hcnt.
  - destruct (Hstep eq_refl ltac:(vm_compute; discriminate))
      as (c1 & Hu & _ & Hsave & (Hv & _) & _).
    exists c1. repeat split; [exact Hu | exact Hsave | symmetry; exact Hv].
Defined.

(** *** Deciding twice *)

(** C9. Let [DecideOnConnection] return on a connection, and let the
    profile it leaves need no update. When the bypass rules and the answer
    to a prompt read only the inputs of a connection (not the verdict a
    decision writes), a second call on the resulting connection returns
    too, with the same verdict, reason, option key and reason context. *)
Theorem C9_second_call_same_verdict E pkt s s1 :
  readsInputsOnly (PreventBypassing E) ->
  readsInputsOnly (fun c => promptAnswer E c pkt) ->
  DecideOnConnection E pkt s = Ok tt s1 ->
  (forall lp1, process.Profile (network.Process (conn s1)) = Some lp1 ->
               profile_NeedsUpdate E lp1 = false) ->
  exists s2, DecideOnConnection E pkt s1 = Ok tt s2
             /\ sameVerdict (conn s1) (conn s2).
Proof.
  intros Hpb Hpr H1 Hnu.
  rewrite DecideOnConnection_eq in H1. rewrite DecideOnConnection_eq.
  destruct (process.Profile (network.Process (conn s))) as [lp |] eqn:Hp.
  - destruct (updateProfileRevision_returns E lp (conn s) Hp)
      as (lp' & c1 & Hu & Hc & Hprof & _).
    rewrite Hu in H1.
    pose proof (afterRevision_frame _ _ _ _ _ H1) as [Hi Hb]. cbn [conn] in Hi, Hb.
    assert (Hp1 : process.Profile (network.Process (conn s1)) = Some lp').
    { destruct Hi as (_ & _ & _ & Hproc & _). rewrite <- Hproc. apply (Hprof lp Hp). }
    rewrite Hp1.
    rewrite (updateProfileRevision_stable E lp' (conn s1) (Hnu lp' Hp1))
      by (destruct Hb as [Hcnt _]; rewrite <- Hcnt; exact Hc).
    pose proof (afterRevision_agree E lp' pkt
                  {| conn := c1; called := called s |}
                  {| conn := conn s1; called := called s1 |} Hpb Hpr Hi) as Ha.
    rewrite H1 in Ha.
    destruct (afterRevision E lp' pkt {| conn := conn s1; called := called s1 |})
      as [[] s2 |]; [| contradiction].
    exists s2. split; [reflexivity |]. cbn [conn] in Ha.
    destruct Ha as [Hv | [_ Hv]]; [exact Hv |].
    rewrite Hv. repeat split.
  - injection H1 as <-. cbn [conn network.Process network.withVerdict]. rewrite Hp.
    eexists. split; [reflexivity |]. repeat split.
Qed.

Lemma C9_second_call_witness :
  exists s1 s2,
    DecideOnConnection examples.quiet None (examples.fresh examples.scenario6) = Ok tt s1
    /\ DecideOnConnection examples.quiet None s1 = Ok tt s2
    /\ sameVerdict (conn s1) (conn s2).
Proof.
  eexists.
  destruct (C9_second_call_same_verdict examples.quiet None
              (examples.fresh examples.scenario6) _
              (fun _ _ _ => eq_refl) (fun _ _ _ => eq_refl)
              ltac:(vm_compute; reflexivity) (fun _ _ => eq_refl))
    as (s2 & H2 & Hv).
  exists s2. split; [vm_compute; reflexivity |]. split; [exact H2 | exact Hv].
Defined.

(** *** Stepping through the pipeline *)

Lemma runDeciders_skip E d rest lp pkt c l :
  decider E d lp pkt c = Ok false c ->
  runDecidersLoop E (d :: rest) lp pkt {| conn := c; called := l |}
  = runDecidersLoop E rest lp pkt {| conn := c; called := d :: l |}.
Proof.
  intros H. cbn [runDecidersLoop]. unfold bind, logCall, modify, inConn.
  cbn [conn called]. rewrite H. reflexivity.
Qed.

Lemma runDeciders_stop E d rest lp pkt c l c' :
  decider E d lp pkt c = Ok true c' ->
  runDecidersLoop E (d :: rest) lp pkt {| conn := c; called := l |}
  = Ok (true, profile.DefaultActionNotSet) {| conn := c'; called := d :: l |}.
Proof.
  intros H. cbn [runDecidersLoop]. unfold bind, logCall, modify, inConn.
  cbn [conn called]. rewrite H. reflexivity.
Qed.

(** The entity is still there after the revision step, with its scope and
    its domain. *)
Lemma revised_entity c lp' c1 e :
  revised c lp' c1 -> network.Entity c = Some e ->
  exists e1, network.Entity c1 = Some e1
             /\ intel.IPScope e1 = intel.IPScope e
             /\ intel.Domain e1 = intel.Domain e.
Proof.
  intros (_ & _ & _ & _ & _ & _ & _ & Hs & Hd) He. rewrite He in Hs, Hd.
  destruct (network.Entity c1) as [e1 |]; [| discriminate].
  exists e1. cbn in Hs, Hd. repeat split; congruence.
Qed.

Lemma checkConnectionScope_invalid E p pkt c e :
  network.Type_ c = network.IPConnection ->
  network.Entity c = Some e ->
  intel.IPScope e = netutils.Unknown \/ intel.IPScope e = netutils.Invalid ->
  checkConnectionScope E p pkt c
  = Ok true (network.withVerdict network.VerdictDeny "invalid IP" "" [] c).
Proof.
  intros Ht He Hs. unfold checkConnectionScope. go_unfold. rewrite Ht, He.
  destruct Hs as [-> | ->]; reflexivity.
Qed.

Lemma checkResolverScope_global_local E p pkt c e r :
  network.Type_ c = network.IPConnection ->
  profile.RemoveOutOfScopeDNS p = true ->
  network.Resolver c = Some r ->
  netutils.IsGlobal (network.ResolverIPScope r) = true ->
  network.Entity c = Some e ->
  netutils.IsLAN (intel.IPScope e) || netutils.IsLocalhost (intel.IPScope e) = true ->
  checkResolverScope E p pkt c
  = Ok true (network.withVerdict network.VerdictBlock
               "DNS server horizon violation: global DNS server returned local IP address"
               (profile.CfgOptionRemoveOutOfScopeDNSKey (keys E)) [] c).
Proof.
  intros Ht Hp Hr Hg He Hs. unfold checkResolverScope. go_unfold.
  rewrite Ht, Hp, Hr. cbn [negb]. rewrite Hg. cbv beta iota.
  rewrite He. cbv beta iota. rewrite Hs. reflexivity.
Qed.

Lemma checkConnectivityDomain_returns E p pkt c e :
  network.Entity c = Some e ->
  exists b c', checkConnectivityDomain E p pkt c = Ok b c'.
Proof.
  intros He. unfold checkConnectivityDomain. go_unfold. rewrite He.
  repeat (branch; try (eexists _, _; reflexivity)).
Qed.

Lemma checkBypassPrevention_returns E p pkt c :
  exists b c', checkBypassPrevention E p pkt c = Ok b c'.
Proof.
  unfold checkBypassPrevention. go_unfold.
  repeat (branch; try (eexists _, _; reflexivity)).
Qed.

(** *** The scope of the remote address *)

(** C2, as stated, fails: an IP connection of Portmaster itself to an
    address of Invalid scope is accepted by [checkPortmasterConnection],
    the first decider, whatever the scope. *)
Lemma C2_own_connection_is_accepted :
  let lp := examples.openProfile profile.DefaultActionBlock false false 7 in
  let c := examples.outbound network.IPConnection
             (Some (examples.entityOf "" netutils.Invalid))
             (examples.proc 4242 "/usr/bin/portmaster-core" "portmaster" "portmaster-core"
                            false (Some lp)) None 7 in
  network.Type_ c = network.IPConnection
  /\ (intel.IPScope <$> network.Entity c) = Some netutils.Invalid
  /\ process.Profile (network.Process c) = Some lp
  /\ exists s', DecideOnConnection examples.quiet None (examples.fresh c) = Ok tt s'
                /\ network.Verdict_ (conn s') = network.VerdictAccept
                /\ network.ReasonMsg (conn s') = "connection by Portmaster"
                /\ network.Verdict_ (conn s') <> network.VerdictDeny.
Proof.
  cbv zeta. repeat split. eexists. split; [vm_compute; reflexivity |].
  repeat split. discriminate.
Qed.

(** C2, amended. For an IP connection with a layered profile whose entity
    has scope Unknown or Invalid: when none of the deciders that come
    before [checkConnectionScope] concludes ([checkPortmasterConnection],
    [checkSelfCommunication], [checkConnectionType]), [DecideOnConnection]
    returns with the verdict Deny and the reason "invalid IP", set by
    [checkConnectionScope], whatever the profile's configuration. *)
Theorem C2_invalid_scope_is_denied E pkt s lp lp' c1 e :
  process.Profile (network.Process (conn s)) = Some lp ->
  network.Type_ (conn s) = network.IPConnection ->
  network.Entity (conn s) = Some e ->
  intel.IPScope e = netutils.Unknown \/ intel.IPScope e = netutils.Invalid ->
  updateProfileRevision E lp (conn s) = Ok lp' c1 ->
  checkPortmasterConnection E lp' pkt c1 = Ok false c1 ->
  checkSelfCommunication E lp' pkt c1 = Ok false c1 ->
  checkConnectionType E lp' pkt c1 = Ok false c1 ->
  exists s', DecideOnConnection E pkt s = Ok tt s'
             /\ network.Verdict_ (conn s') = network.VerdictDeny
             /\ network.ReasonMsg (conn s') = "invalid IP"
             /\ network.ReasonOptionKey (conn s') = noReasonOptionKey
             /\ called s' = ([checkConnectionScope_; checkConnectionType_;
                              checkSelfCommunication_; checkPortmasterConnection_]
                             ++ called s)%list.
Proof.
  intros Hp Ht He Hs Hu H1 H2 H3.
  destruct (updateProfileRevision_returns E lp (conn s) Hp) as (lp0 & c0 & Hu0 & Hrev).
  rewrite Hu in Hu0. injection Hu0 as <- <-.
  destruct (revised_entity _ _ _ _ Hrev He) as (e1 & He1 & Hs1 & _).
  destruct Hrev as (_ & _ & Ht1 & _).
  rewrite DecideOnConnection_eq, Hp, Hu.
  unfold afterRevision, runDeciders, bind at 1, inConn at 1, getConn, get.
  cbn [conn called]. rewrite Ht1, Ht. unfold bind at 1, defaultDeciders.
  rewrite (runDeciders_skip E checkPortmasterConnection_) by exact H1.
  rewrite (runDeciders_skip E checkSelfCommunication_) by exact H2.
  rewrite (runDeciders_skip E checkConnectionType_) by exact H3.
  erewrite (runDeciders_stop E checkConnectionScope_)
    by (apply (checkConnectionScope_invalid E lp' pkt c1 e1);
        [ congruence | exact He1 | rewrite Hs1; exact Hs ]).
  eexists. split; [reflexivity |]. repeat split.
Qed.

Lemma C2_invalid_scope_witness :
  let lp := examples.openProfile profile.DefaultActionPermit false false 7 in
  let c := examples.outbound network.IPConnection
             (Some (examples.entityOf "" netutils.Invalid))
             (examples.chrome (Some lp)) None 7 in
  exists s', DecideOnConnection examples.quiet None (examples.fresh c) = Ok tt s'
             /\ network.Verdict_ (conn s') = network.VerdictDeny
             /\ network.ReasonMsg (conn s') = "invalid IP".
Proof.
  intros lp c.
  destruct (C2_invalid_scope_is_denied examples.quiet None (examples.fresh c) lp lp c
              (examples.entityOf "" netutils.Invalid)
              eq_refl eq_refl eq_refl (or_intror eq_refl) eq_refl eq_refl eq_refl eq_refl)
    as (s' & H & Hv & Hm & _).
  exists s'. repeat split; assumption.
Defined.

(** *** The horizon of the resolver *)

(** C3, as stated, fails: with out-of-scope DNS removal on and a Global
    resolver, an entity of Invalid scope (which is not Global) is denied by
    [checkConnectionScope], which comes first; the verdict is not Block. *)
Lemma C3_invalid_scope_is_not_blocked :
  let lp := examples.openProfile profile.DefaultActionPermit true false 7 in
  let c := examples.outbound network.IPConnection
             (Some (examples.entityOf "intranet.example" netutils.Invalid))
             (examples.chrome (Some lp))
             (Some {| network.ResolverIPScope := netutils.Global |}) 7 in
  network.Type_ c = network.IPConnection
  /\ profile.RemoveOutOfScopeDNS lp = true
  /\ (network.ResolverIPScope <$> network.Resolver c) = Some netutils.Global
  /\ (intel.IPScope <$> network.Entity c) <> Some netutils.Global
  /\ exists s', DecideOnConnection examples.quiet None (examples.fresh c) = Ok tt s'
                /\ network.Verdict_ (conn s') = network.VerdictDeny
                /\ network.Verdict_ (conn s') <> network.VerdictBlock.
Proof.
  cbv zeta. repeat split; try discriminate.
  eexists. split; [vm_compute; reflexivity |]. repeat split. discriminate.
Qed.

(** The same premises with an entity of scope GlobalMulticast: no decider
    concludes, [checkResolverScope] included, and the default action
    decides. *)
Lemma horizon_global_multicast_passes :
  let lp := examples.openProfile profile.DefaultActionPermit true false 7 in
  let c := examples.outbound network.IPConnection
             (Some (examples.entityOf "cdn.example" netutils.GlobalMulticast))
             (examples.chrome (Some lp))
             (Some {| network.ResolverIPScope := netutils.Global |}) 7 in
  checkResolverScope examples.quiet lp None c = Ok false c
  /\ exists s', DecideOnConnection examples.quiet None (examples.fresh c) = Ok tt s'
                /\ network.Verdict_ (conn s') = network.VerdictAccept
                /\ network.ReasonMsg (conn s') = "allowed by default action".
Proof.
  cbv zeta. split; [reflexivity |].
  eexists. split; [vm_compute; reflexivity |]. repeat split.
Qed.

(** The same premises with a LAN entity that an endpoint rule permits:
    [checkEndpointLists] comes first and accepts. *)
Lemma horizon_endpoint_rule_comes_first :
  let lp := examples.openProfile profile.DefaultActionBlock true false 7 in
  let lp := {| profile.BlockInbound := profile.BlockInbound lp;
               profile.BlockP2P := profile.BlockP2P lp;
               profile.BlockScopeInternet := profile.BlockScopeInternet lp;
               profile.BlockScopeLAN := profile.BlockScopeLAN lp;
               profile.BlockScopeLocal := profile.BlockScopeLocal lp;
               profile.PreventBypassing := profile.PreventBypassing lp;
               profile.DomainHeuristics := profile.DomainHeuristics lp;
               profile.DisableAutoPermit := profile.DisableAutoPermit lp;
               profile.RemoveOutOfScopeDNS := profile.RemoveOutOfScopeDNS lp;
               profile.DefaultAction := profile.DefaultAction lp;
               profile.RevisionCounter := profile.RevisionCounter lp;
               profile.MatchEndpoint := fun _ =>
                 (endpoints.Permitted,
                  {| endpoints.Reason_String := "allowed by endpoint rule";
                     endpoints.Reason_Context := [] |});
               profile.MatchServiceEndpoint := profile.MatchServiceEndpoint lp;
               profile.MatchFilterLists := profile.MatchFilterLists lp |} in
  let c := examples.outbound network.IPConnection
             (Some (examples.entityOf "printer.example" netutils.SiteLocal))
             (examples.chrome (Some lp))
             (Some {| network.ResolverIPScope := netutils.Global |}) 7 in
  exists s', DecideOnConnection examples.quiet None (examples.fresh c) = Ok tt s'
             /\ network.Verdict_ (conn s') = network.VerdictAccept
             /\ network.ReasonMsg (conn s') = "allowed by endpoint rule".
Proof.
  cbv zeta. eexists. split; [vm_compute; reflexivity |]. repeat split.
Qed.

(** C3, amended. For an IP connection whose profile has out-of-scope DNS
    removal on, with a resolver of scope Global and an entity whose scope
    is LAN (SiteLocal, LinkLocal, LocalMulticast) or HostLocal: when none of
    the deciders that come before [checkResolverScope] concludes,
    [DecideOnConnection] returns with the verdict Block and the reason
    "DNS server horizon violation: global DNS server returned local IP
    address". *)
Theorem C3_horizon_violation_is_blocked E pkt s lp lp' c1 e r :
  process.Profile (network.Process (conn s)) = Some lp ->
  network.Type_ (conn s) = network.IPConnection ->
  network.Entity (conn s) = Some e ->
  network.Resolver (conn s) = Some r ->
  network.ResolverIPScope r = netutils.Global ->
  netutils.IsLAN (intel.IPScope e) || netutils.IsLocalhost (intel.IPScope e) = true ->
  updateProfileRevision E lp (conn s) = Ok lp' c1 ->
  profile.RemoveOutOfScopeDNS lp' = true ->
  checkPortmasterConnection E lp' pkt c1 = Ok false c1 ->
  checkSelfCommunication E lp' pkt c1 = Ok false c1 ->
  checkConnectionType E lp' pkt c1 = Ok false c1 ->
  checkConnectionScope E lp' pkt c1 = Ok false c1 ->
  checkEndpointLists E lp' pkt c1 = Ok false c1 ->
  exists s', DecideOnConnection E pkt s = Ok tt s'
             /\ network.Verdict_ (conn s') = network.VerdictBlock
             /\ network.ReasonMsg (conn s')
                = "DNS server horizon violation: global DNS server returned local IP address"
             /\ network.ReasonOptionKey (conn s')
                = profile.CfgOptionRemoveOutOfScopeDNSKey (keys E).
Proof.
  intros Hp Ht He Hr Hg Hs Hu Hdns H1 H2 H3 H4 H5.
  destruct (updateProfileRevision_returns E lp (conn s) Hp) as (lp0 & c0 & Hu0 & Hrev).
  rewrite Hu in Hu0. injection Hu0 as <- <-.
  destruct (revised_entity _ _ _ _ Hrev He) as (e1 & He1 & Hs1 & _).
  destruct Hrev as (_ & _ & Ht1 & _ & Hr1 & _).
  rewrite DecideOnConnection_eq, Hp, Hu.
  unfold afterRevision, runDeciders, bind at 1, inConn at 1, getConn, get.
  cbn [conn called]. rewrite Ht1, Ht. unfold bind at 1, defaultDeciders.
  rewrite (runDeciders_skip E checkPortmasterConnection_) by exact H1.
  rewrite (runDeciders_skip E checkSelfCommunication_) by exact H2.
  rewrite (runDeciders_skip E checkConnectionType_) by exact H3.
  rewrite (runDeciders_skip E checkConnectionScope_) by exact H4.
  rewrite (runDeciders_skip E checkEndpointLists_) by exact H5.
  erewrite (runDeciders_stop E checkResolverScope_)
    by (apply (checkResolverScope_global_local E lp' pkt c1 e1 r);
        [ congruence | exact Hdns | congruence | rewrite Hg; reflexivity
        | exact He1 | rewrite Hs1; exact Hs ]).
  eexists. split; [reflexivity |]. repeat split.
Qed.

Lemma C3_horizon_violation_witness :
  let lp := examples.openProfile profile.DefaultActionPermit true false 7 in
  let c := examples.outbound network.IPConnection
             (Some (examples.entityOf "printer.example" netutils.SiteLocal))
             (examples.chrome (Some lp))
             (Some {| network.ResolverIPScope := netutils.Global |}) 7 in
  exists s', DecideOnConnection examples.quiet None (examples.fresh c) = Ok tt s'
             /\ network.Verdict_ (conn s') = network.VerdictBlock.
Proof.
  intros lp c.
  destruct (C3_horizon_violation_is_blocked examples.quiet None (examples.fresh c) lp lp c
              (examples.entityOf "printer.example" netutils.SiteLocal)
              {| network.ResolverIPScope := netutils.Global |}
              eq_refl eq_refl eq_refl eq_refl eq_refl eq_refl eq_refl eq_refl
              eq_refl eq_refl eq_refl eq_refl eq_refl)
    as (s' & H & Hv & _).
  exists s'. split; assumption.
Defined.

(** *** Requests of the system resolver *)

(** C6. For a DNS request of the system resolver with a layered profile,
    [DecideOnConnection] calls [checkConnectivityDomain] first; on a nil
    entity that decider panics. Otherwise the call returns, and one of three
    things happened: [checkConnectivityDomain] concluded and nothing else
    was called; or it did not, [checkBypassPrevention] was called next and
    concluded; or neither concluded, and the connection is the one left by
    the revision step with the verdict Accept and the reason "allowing
    system resolver dns request". No other decider is called, and in no
    case does the default action or a prompt touch the connection. *)
Theorem C6_system_resolver_pipeline E pkt s lp :
  process.Profile (network.Process (conn s)) = Some lp ->
  network.Type_ (conn s) = network.DNSRequest ->
  process.IsSystemResolver (network.Process (conn s)) = true ->
  exists lp' c1,
    updateProfileRevision E lp (conn s) = Ok lp' c1
    /\ match network.Entity (conn s) with
       | None => DecideOnConnection E pkt s = Panic "nil pointer dereference"
       | Some _ =>
           exists s',
             DecideOnConnection E pkt s = Ok tt s'
             /\ ((exists c', checkConnectivityDomain E lp' pkt c1 = Ok true c'
                             /\ conn s' = c'
                             /\ called s' = checkConnectivityDomain_ :: called s)
                 \/ (checkConnectivityDomain E lp' pkt c1 = Ok false c1
                     /\ exists c', checkBypassPrevention E lp' pkt c1 = Ok true c'
                                   /\ conn s' = c'
                                   /\ called s' = checkBypassPrevention_
                                                  :: checkConnectivityDomain_ :: called s)
                 \/ (checkConnectivityDomain E lp' pkt c1 = Ok false c1
                     /\ checkBypassPrevention E lp' pkt c1 = Ok false c1
                     /\ conn s' = network.withVerdict network.VerdictAccept
                                    "allowing system resolver dns request"
                                    noReasonOptionKey [] c1
                     /\ called s' = checkBypassPrevention_
                                    :: checkConnectivityDomain_ :: called s))
       end.
Proof.
  intros Hp Ht Hr.
  destruct (updateProfileRevision_returns E lp (conn s) Hp) as (lp' & c1 & Hu & Hrev).
  exists lp', c1. split; [exact Hu |].
  destruct (network.Entity (conn s)) as [e |] eqn:He;
    rewrite DecideOnConnection_eq, Hp, Hu;
    unfold afterRevision, runDeciders, bind at 1, inConn at 1, getConn, get;
    cbn [conn called].
  - destruct (revised_entity _ _ _ _ Hrev He) as (e1 & He1 & _).
    destruct Hrev as (_ & _ & Ht1 & _ & _ & Hr1 & _).
    rewrite Ht1, Ht, Hr1, Hr.
    unfold bind at 1, dnsFromSystemResolverDeciders.
    destruct (checkConnectivityDomain_returns E lp' pkt c1 e1 He1) as (b & c' & Hcd).
    destruct b.
    + erewrite (runDeciders_stop E checkConnectivityDomain_) by exact Hcd.
      eexists. split; [reflexivity |].
      left. exists c'. repeat split; assumption.
    + assert (c' = c1) as ->
          by (apply (decider_frame E checkConnectivityDomain_ lp' pkt c1 false c' Hcd);
              reflexivity).
      rewrite (runDeciders_skip E checkConnectivityDomain_) by exact Hcd.
      destruct (checkBypassPrevention_returns E lp' pkt c1) as (b & c' & Hbp).
      destruct b.
      * erewrite (runDeciders_stop E checkBypassPrevention_) by exact Hbp.
        eexists. split; [reflexivity |].
        right; left. split; [assumption |]. exists c'. repeat split; assumption.
      * assert (c' = c1) as ->
            by (apply (decider_frame E checkBypassPrevention_ lp' pkt c1 false c' Hbp);
                reflexivity).
        rewrite (runDeciders_skip E checkBypassPrevention_) by exact Hbp.
        eexists. split; [reflexivity |].
        right; right. repeat split; assumption.
  - destruct Hrev as (_ & _ & Ht1 & _ & _ & Hr1 & _ & _ & Hd).
    rewrite He in Hd.
    destruct (network.Entity c1) as [e1 |] eqn:He1; [discriminate |].
    rewrite Ht1, Ht, Hr1, Hr.
    unfold bind at 1, dnsFromSystemResolverDeciders.
    cbn [runDecidersLoop decider]. unfold checkConnectivityDomain. go_unfold.
    cbn [conn called]. rewrite He1. reflexivity.
Qed.

Lemma C6_system_resolver_witness :
  let lp := examples.openProfile profile.DefaultActionBlock false false 7 in
  let c := examples.outbound network.DNSRequest
             (Some (examples.entityOf "example.com" netutils.Global))
             (examples.proc 812 "/usr/lib/systemd/systemd-resolved" "systemd-resolved"
                            "systemd-resolved" true (Some lp)) None 7 in
  exists s', DecideOnConnection examples.quiet None (examples.fresh c) = Ok tt s'
             /\ network.Verdict_ (conn s') = network.VerdictAccept
             /\ network.ReasonMsg (conn s') = "allowing system resolver dns request"
             /\ called s' = [checkBypassPrevention_; checkConnectivityDomain_].
Proof.
  intros lp c.
  destruct (C6_system_resolver_pipeline examples.quiet None (examples.fresh c) lp
              eq_refl eq_refl eq_refl)
    as (lp' & c1 & Hu & s' & H & Hcases).
  exists s'. split; [exact H |].
  vm_compute in Hu. injection Hu as <- <-.
  destruct Hcases as [(c' & Hcd & _) | [(_ & c' & Hbp & _) | (_ & _ & Hc & Hl)]];
    [ vm_compute in Hcd; discriminate | vm_compute in Hbp; discriminate | ].
  rewrite Hc, Hl. repeat split.
Defined.

(** *** Domain heuristics *)

(** What the second check of [checkDomainHeuristics] scores: the first
    [len(etld1)] bytes of the trimmed domain. *)
Lemma checkDomainHeuristics_scores_slice E p pkt c e etld1 :
  profile.DomainHeuristics p = true ->
  network.Entity c = Some e ->
  intel.Domain e <> "" ->
  publicsuffix_EffectiveTLDPlusOne E (strings.TrimRight (intel.Domain e) ".") = Some etld1 ->
  Qltb (dga_LmsScore E (hd "" (strings.Split etld1 "."))) 5 = false ->
  (String.length etld1 + 100 < String.length (intel.Domain e))%nat ->
  (String.length etld1 <= String.length (strings.TrimRight (intel.Domain e) "."))%nat ->
  checkDomainHeuristics E p pkt c
  = if Qltb (dga_LmsScoreOfDomain E
               (String.substring 0 (String.length etld1)
                  (strings.TrimRight (intel.Domain e) "."))) 10
    then Ok true (network.withVerdict network.VerdictBlock
                    "possible data tunnel for covert communication and protection bypassing"
                    (profile.CfgOptionDomainHeuristicsKey (keys E)) [] c)
    else Ok false c.
Proof.
  intros Hh He Hd Het Hs Hlen Hle.
  unfold checkDomainHeuristics, strings.slice0. go_unfold.
  rewrite Hh. cbn [negb]. cbv beta iota. rewrite He. cbv beta iota.
  destruct (String.eqb_spec (intel.Domain e) ""); [contradiction |].
  rewrite Het, Hs.
  destruct (Nat.ltb_spec (String.length etld1 + 100) (String.length (intel.Domain e)));
    [| lia].
  destruct (Nat.leb_spec (String.length etld1)
              (String.length (strings.TrimRight (intel.Domain e) "."))); [| lia].
  destruct (Qltb _ 10); reflexivity.
Qed.

(** C7. On a domain whose subdomain of 101 letters a stands before
    example.com, with domain heuristics on and a second-level label that
    scores 100, [checkDomainHeuristics] scores the first eleven bytes of the
    domain (as many as example.com has), not the prefix that precedes
    example.com: that prefix scores 0, with or without its final dot, yet
    the decider does not block. *)
Theorem C7_tunnel_prefix_is_not_scored :
  let E := examples.tunnelEnv in
  let c := examples.tunnelConn in
  let lp := examples.openProfile profile.DefaultActionPermit false true 7 in
  let etld1 := "example.com" in
  let domain := examples.tunnelDomain in
  profile.DomainHeuristics lp = true
  /\ (intel.Domain <$> network.Entity c) = Some domain
  /\ publicsuffix_EffectiveTLDPlusOne E (strings.TrimRight domain ".") = Some etld1
  /\ Qltb (dga_LmsScore E (hd "" (strings.Split etld1 "."))) 5 = false
  /\ (String.length etld1 + 100 < String.length domain)%nat
  /\ domain = examples.letters 101 ++ "." ++ etld1
  /\ Qltb (dga_LmsScoreOfDomain E (examples.letters 101)) 10 = true
  /\ Qltb (dga_LmsScoreOfDomain E (examples.letters 101 ++ ".")) 10 = true
  /\ String.substring 0 (String.length etld1) (strings.TrimRight domain ".")
     = examples.letters 11
  /\ checkDomainHeuristics E lp None c = Ok false c.
Proof.
  cbv zeta. repeat split; try reflexivity.
  vm_compute. lia.
Qed.

(** *** The filterlists module *)

(** C8. At startup, with the loaded signal still pending: when the cache
    database version is read and the bloom filters load from the cache,
    [start] closes the channel of the signal and raises no warning; when
    either fails, [start] leaves the signal pending and raises the warning
    filterlists:disabled. [stop] puts a new, open channel in place of the
    signal and leaves every channel there was as it is. *)
Theorem C8_start_and_stop {A} (E : filterlists.Env A) (s : filterlists.St A) :
  (filterlists.signalPending (filterlists.vars s) ->
   (forall ver f,
      filterlists.getCacheDatabaseVersion E = inl ver ->
      filterlists.loadFromCache E (filterlists.defaultFilter (filterlists.vars s)) = (f, None) ->
      exists s', filterlists.start E s = Ok None s'
                 /\ filterlists.isLoaded (filterlists.vars s') = true
                 /\ filterlists.warnings (filterlists.vars s')
                    = filterlists.warnings (filterlists.vars s))
   /\ ((exists e, filterlists.getCacheDatabaseVersion E = inr e)
       \/ (exists ver f e,
             filterlists.getCacheDatabaseVersion E = inl ver
             /\ filterlists.loadFromCache E (filterlists.defaultFilter (filterlists.vars s))
                = (f, Some e)) ->
       exists s' w, filterlists.start E s = Ok None s'
                    /\ filterlists.signalPending (filterlists.vars s')
                    /\ filterlists.isLoaded (filterlists.vars s') = false
                    /\ filterlists.warnings (filterlists.vars s')
                       = w :: filterlists.warnings (filterlists.vars s)
                    /\ filterlists.warnID w = "filterlists:disabled"))
  /\ exists s', filterlists.stop s = Ok None s'
                /\ filterlists.chans (filterlists.vars s)
                   !! filterlists.filterListsLoaded (filterlists.vars s') = None
                /\ filterlists.signalPending (filterlists.vars s')
                /\ filterlists.isLoaded (filterlists.vars s') = false
                /\ forall (i : nat) (b : bool),
                     filterlists.chans (filterlists.vars s) !! i = Some b ->
                     filterlists.chans (filterlists.vars s') !! i = Some b.
Proof.
  destruct s as [v n]. cbn [filterlists.vars]. split.
  - intros Hpend. unfold filterlists.signalPending in Hpend. split.
    + intros ver f Hv Hl. lists_unfold. rewrite Hv. cbn. rewrite Hl. cbn.
      rewrite Hpend.
      eexists. split; [reflexivity |]. cbn. split; [| reflexivity].
      unfold filterlists.isLoaded. cbn.
      rewrite list_lookup_insert_eq; [reflexivity |].
      apply lookup_lt_Some in Hpend. exact Hpend.
    + intros [[e Hv] | (ver & f & e & Hv & Hl)]; lists_unfold; rewrite Hv; cbn;
        try rewrite Hl; cbn; eexists _, _; (split; [reflexivity |]); cbn;
        unfold filterlists.signalPending, filterlists.isLoaded; cbn;
        rewrite Hpend; repeat split.
  - lists_unfold. eexists. split; [reflexivity |]. cbn.
    unfold filterlists.signalPending, filterlists.isLoaded. cbn.
    rewrite lookup_ge_None_2 by lia.
    rewrite lookup_app_r by lia. rewrite Nat.sub_diag. cbn.
    repeat split. intros i b Hi. rewrite lookup_app_l; [exact Hi |].
    apply lookup_lt_Some in Hi. exact Hi.
Qed.

Lemma C8_start_and_stop_witness :
  let s := filterlists.initial 0%nat in
  (exists s', filterlists.start (examples.listsEnv (inl "v1") None true) s = Ok None s'
              /\ filterlists.isLoaded (filterlists.vars s') = true)
  /\ (exists s', filterlists.start (examples.listsEnv (inr "no database") None true) s
                 = Ok None s'
                 /\ filterlists.isLoaded (filterlists.vars s') = false
                 /\ filterlists.warnID <$> filterlists.warnings (filterlists.vars s')
                    = ["filterlists:disabled"])
  /\ exists s', filterlists.stop s = Ok None s'
                /\ filterlists.filterListsLoaded (filterlists.vars s') = 1%nat.
Proof.
  intros s. split; [| split].
  - destruct (C8_start_and_stop (examples.listsEnv (inl "v1") None true) s)
      as [Hstart _].
    destruct (Hstart eq_refl) as [Hok _].
    destruct (Hok "v1" 1%nat eq_refl eq_refl) as (s' & H & Hl & _).
    exists s'. split; assumption.
  - destruct (C8_start_and_stop (examples.listsEnv (inr "no database") None true) s)
      as [Hstart _].
    destruct (Hstart eq_refl) as [_ Hfail].
    destruct (Hfail (or_introl (ex_intro _ "no database" eq_refl)))
      as (s' & w & H & _ & Hl & Hw & Hid).
    exists s'. split; [exact H |]. split; [exact Hl |].
    rewrite Hw. cbn. rewrite Hid. reflexivity.
  - destruct (C8_start_and_stop (examples.listsEnv (inl "v1") None true) s)
      as [_ (s' & H & _)].
    exists s'. split; [exact H |].
    vm_compute in H. injection H as <-. reflexivity.
Defined.

(** None of [prep], [start], [stop] and the two handlers clears the netenv
    ignore flag, provided [tryListUpdate] does not; and only the handler of
    the resource update event calls [tryListUpdate] while the flag is
    set. *)
Lemma step_keeps_netenv_flag {A} (E : filterlists.Env A) o (s s' : filterlists.St A) err :
  (forall v e v', filterlists.tryListUpdate E v = Ok e v' ->
                  filterlists.ignoreNetEnvEvents v = true ->
                  filterlists.ignoreNetEnvEvents v' = true) ->
  filterlists.ignoreNetEnvEvents (filterlists.vars s) = true ->
  filterlists.step E o s = Ok err s' ->
  filterlists.ignoreNetEnvEvents (filterlists.vars s') = true
  /\ (filterlists.listUpdates s'
      <= filterlists.listUpdates s + (if filterlists.isResourceUpdate o then 1 else 0))%nat.
Proof.
  intros Hext Hflag. destruct s as [v n]. cbn in Hflag.
  destruct o as [| | | []]; lists_unfold; cbn;
    repeat (branch; cbn; try discriminate; try congruence);
    intros H; injection H as <- <-; cbn;
    (split; [first [assumption | eapply Hext; eassumption] | lia]).
Qed.

Lemma run_keeps_netenv_flag {A} (E : filterlists.Env A) ops :
  (forall v e v', filterlists.tryListUpdate E v = Ok e v' ->
                  filterlists.ignoreNetEnvEvents v = true ->
                  filterlists.ignoreNetEnvEvents v' = true) ->
  forall (s s' : filterlists.St A),
    filterlists.ignoreNetEnvEvents (filterlists.vars s) = true ->
    filterlists.run E ops s = Ok tt s' ->
    filterlists.ignoreNetEnvEvents (filterlists.vars s') = true
    /\ (filterlists.listUpdates s'
        <= filterlists.listUpdates s
           + List.length (List.filter filterlists.isResourceUpdate ops))%nat.
Proof.
  intros Hext. induction ops as [| o rest IH]; intros s s' Hflag H.
  - cbn in H. injection H as <-. split; [assumption | cbn; lia].
  - cbn [filterlists.run] in H. unfold bind in H.
    destruct (filterlists.step E o s) as [err s1 |] eqn:Hs; [| discriminate].
    destruct (step_keeps_netenv_flag E o s s1 err Hext Hflag Hs) as [Hf1 Hn1].
    destruct (IH s1 s' Hf1 H) as [Hf' Hn']. split; [exact Hf' |].
    cbn [List.filter]. destruct (filterlists.isResourceUpdate o); cbn [List.length]; lia.
Qed.

(** C10. [init] sets the netenv ignore flag. While the flag is set, the
    handler of the online status changed event returns nil and leaves
    everything as it is: it does not call [tryListUpdate]. And as long as
    [tryListUpdate] does not clear the flag, no run of [prep], [start],
    [stop] and event deliveries after [init] clears it, and in such a run
    [tryListUpdate] is called at most once for each resource update event
    delivered, never for an online status changed event. *)
Theorem C10_netenv_events_are_ignored {A} (E : filterlists.Env A) :
  (forall v e v', filterlists.tryListUpdate E v = Ok e v' ->
                  filterlists.ignoreNetEnvEvents v = true ->
                  filterlists.ignoreNetEnvEvents v' = true) ->
  (forall s : filterlists.St A,
     exists s', filterlists.init s = Ok tt s'
                /\ filterlists.ignoreNetEnvEvents (filterlists.vars s') = true
                /\ filterlists.listUpdates s' = filterlists.listUpdates s)
  /\ (forall s : filterlists.St A,
        filterlists.ignoreNetEnvEvents (filterlists.vars s) = true ->
        filterlists.onlineStatusChangedHandler E s = Ok None s)
  /\ (forall (s0 s1 s' : filterlists.St A) ops,
        filterlists.init s0 = Ok tt s1 ->
        filterlists.run E ops s1 = Ok tt s' ->
        filterlists.ignoreNetEnvEvents (filterlists.vars s') = true
        /\ (filterlists.listUpdates s'
            <= filterlists.listUpdates s0
               + List.length (List.filter filterlists.isResourceUpdate ops))%nat).
Proof.
  intros Hext. split; [| split].
  - intros s. lists_unfold. eexists. split; [reflexivity |]. split; reflexivity.
  - intros s Hflag. lists_unfold. rewrite Hflag. reflexivity.
  - intros s0 s1 s' ops Hinit Hrun.
    assert (Hf1 : filterlists.ignoreNetEnvEvents (filterlists.vars s1) = true
                  /\ filterlists.listUpdates s1 = filterlists.listUpdates s0).
    { lists_unfold. injection Hinit as <-. split; reflexivity. }
    destruct Hf1 as [Hf1 Hn1].
    destruct (run_keeps_netenv_flag E ops Hext s1 s' Hf1 Hrun) as [Hf Hn].
    split; [exact Hf | lia].
Qed.

Lemma C10_netenv_events_witness :
  let E := examples.listsEnv (inl "v1") None true in
  let ops := [filterlists.callPrep; filterlists.callStart;
              filterlists.deliver filterlists.onOnlineStatusChanged;
              filterlists.deliver filterlists.onOnlineStatusChanged] in
  exists s1 s',
    filterlists.init (filterlists.initial 0%nat) = Ok tt s1
    /\ filterlists.run E ops s1 = Ok tt s'
    /\ filterlists.onlineStatusChangedHandler E s' = Ok None s'
    /\ filterlists.listUpdates s' = 0%nat.
Proof.
  intros E ops.
  destruct (C10_netenv_events_are_ignored E
              ltac:(intros v e v' H Hf; vm_compute in H; injection H as <- <-; exact Hf))
    as (Hinit & Hhandler & Hrun).
  destruct (Hinit (filterlists.initial 0%nat)) as (s1 & H1 & _).
  exists s1.
  assert (Hr : exists s', filterlists.run E ops s1 = Ok tt s').
  { vm_compute in H1. injection H1 as <-. eexists. vm_compute. reflexivity. }
  destruct Hr as (s' & Hr). exists s'.
  destruct (Hrun _ _ _ ops H1 Hr) as [Hf Hn].
  repeat split; [exact H1 | exact Hr | apply Hhandler, Hf | cbn in Hn; lia].
Defined.

(** ** Further properties of the decision pipeline *)

Lemma decider_sets_or_keeps E d lp pkt c b r :
  decider E d lp pkt c = Ok b r ->
  if b then setBy c r else r = c.
Proof.
  revert b r. unfold setBy.
  destruct d; cbv delta [decider checkPortmasterConnection checkSelfCommunication
    checkConnectionType checkConnectionScope checkEndpointLists checkResolverScope
    checkConnectivityDomain checkBypassPrevention checkFilterLists dropInbound
    checkDomainHeuristics checkAutoPermitRelated checkRelation strings.slice0];
    go_unfold; cbv beta iota zeta;
    repeat (branch; cbv beta iota zeta; try discriminate);
    intros ? ? H; try discriminate; injection H as <- <-; try reflexivity;
    eexists _, _, _, _;
    (split; [| first [ left; reflexivity | right; split; reflexivity ] ]); reflexivity.
Qed.



Lemma runDeciders_split E ds lp pkt : forall s done act r,
  runDeciders E ds lp pkt s = Ok (done, act) r ->
  if done then
    exists pre d post,
      ds = (pre ++ d :: post)%list
      /\ called r = (d :: rev pre ++ called s)%list
      /\ Forall (fun d' => decider E d' lp pkt (conn s) = Ok false (conn s)) pre
      /\ decider E d lp pkt (conn s) = Ok true (conn r)
      /\ act = profile.DefaultActionNotSet
  else
    called r = (rev ds ++ called s)%list
    /\ Forall (fun d' => decider E d' lp pkt (conn s) = Ok false (conn s)) ds
    /\ conn r = conn s
    /\ act = profile.DefaultAction lp.
Proof.
  unfold runDeciders.
  induction ds as [| d rest IH]; intros s done act r H.
  - cbn in H. injection H as <- <- <-. repeat split. constructor.
  - destruct s as [c l]. cbn [runDecidersLoop] in H.
    unfold bind, logCall, modify, inConn in H. cbn [conn called] in H.
    destruct (decider E d lp pkt c) as [b c' |] eqn:Hd; [| discriminate].
    destruct b.
    + injection H as <- <- <-. exists [], d, rest. cbn. repeat split; [constructor | exact Hd].
    + pose proof (decider_sets_or_keeps _ _ _ _ _ _ _ Hd) as Hc. cbn in Hc. subst c'.
      apply IH in H. cbn [conn called] in H. destruct done.
      * destruct H as (pre & d0 & post & -> & Hcalled & Hpre & Hd0 & ->).
        exists (d :: pre), d0, post. cbn [conn]. repeat split.
        -- rewrite Hcalled. cbn. rewrite <- app_assoc. reflexivity.
        -- constructor; assumption.
        -- exact Hd0.
      * destruct H as (Hcalled & Hall & Hconn & ->). cbn [conn]. repeat split.
        -- rewrite Hcalled. cbn. rewrite <- app_assoc. reflexivity.
        -- constructor; assumption.
        -- exact Hconn.
Qed.

(** The order of the deciders is their precedence. A run of deciders that
    concludes has called the selected deciders up to the first one that
    returns true, each of the earlier ones having returned false on the
    untouched connection; none after it is called, and the default action
    returned is NotSet. A run that does not conclude has called them all,
    left the connection as it was and returns the profile's default
    action. *)
Theorem runDeciders_first_conclusion_wins E ds lp pkt : forall s done act r,
  runDeciders E ds lp pkt s = Ok (done, act) r ->
  if done then
    exists pre d post,
      ds = (pre ++ d :: post)%list
      /\ called r = (d :: rev pre ++ called s)%list
      /\ Forall (fun d' => decider E d' lp pkt (conn s) = Ok false (conn s)) pre
      /\ decider E d lp pkt (conn s) = Ok true (conn r)
      /\ act = profile.DefaultActionNotSet
  else
    called r = (rev ds ++ called s)%list
    /\ Forall (fun d' => decider E d' lp pkt (conn s) = Ok false (conn s)) ds
    /\ conn r = conn s
    /\ act = profile.DefaultAction lp.
Proof. exact (runDeciders_split E ds lp pkt). Qed.

Lemma runDeciders_first_conclusion_witness :
  let c := examples.outbound network.IPConnection
             (Some (examples.entityOf "" netutils.Invalid))
             (examples.chrome None) None 0 in
  exists r, runDeciders examples.quiet defaultDeciders
              (examples.openProfile profile.DefaultActionBlock false false 0) None
              (examples.fresh c)
            = Ok (true, profile.DefaultActionNotSet) r
            /\ called r = [checkConnectionScope_; checkConnectionType_;
                           checkSelfCommunication_; checkPortmasterConnection_].
Proof.
  intros c. eexists. split; [vm_compute; reflexivity |].
  destruct (runDeciders_first_conclusion_wins examples.quiet defaultDeciders
              (examples.openProfile profile.DefaultActionBlock false false 0) None
              (examples.fresh c) true _ _ ltac:(vm_compute; reflexivity))
    as (pre & d & post & _).
  reflexivity.
Defined.

(** What follows the revision step, in terms of the run of the selected
    deciders. *)
Lemma afterRevision_cases E lp pkt c l s' :
  afterRevision E lp pkt {| conn := c; called := l |} = Ok tt s' ->
  exists done act r,
    runDeciders E (pipelineOf c) lp pkt {| conn := c; called := l |} = Ok (done, act) r
    /\ called s' = called r
    /\ if done then conn s' = conn r
       else if viaSystemResolver c
            then conn s' = network.withVerdict network.VerdictAccept
                             "allowing system resolver dns request" noReasonOptionKey [] c
            else conn s' = byDefaultAction E lp pkt c.
Proof.
  unfold afterRevision, pipelineOf, viaSystemResolver, byDefaultAction, bind at 1,
    inConn at 1, getConn, get.
  cbn [conn called].
  destruct (network.Type_ c), (process.IsSystemResolver (network.Process c));
    unfold bind at 1;
    (destruct (runDeciders E _ lp pkt _) as [[done act] r |] eqn:Hr; [| discriminate]);
    pose proof (runDeciders_split _ _ _ _ _ _ _ _ Hr) as Hw;
    cbn [fst snd negb]; destruct done; cbn [negb conn] in *.
  all: try solve [intros H; injection H as <-; exists true, act, r; repeat split].
  all: destruct Hw as (_ & _ & Hc & ->).
  all: try solve [unfold inConn, Accept, AcceptWithContext, SetVerdict, onConn, modify;
                  intros H; injection H as <-;
                  eexists false, _, r; cbn [conn called]; rewrite Hc; repeat split].
  all: destruct (profile.DefaultAction lp);
    try solve [unfold inConn, Accept, AcceptWithContext, Deny, DenyWithContext,
                 SetVerdict, onConn, modify;
               intros H; injection H as <-;
               eexists false, _, r; cbn [conn called]; rewrite Hc; repeat split].
  all: unfold inConn; cbn [conn called]; rewrite ?Hc;
    pose proof (prompt_cases E pkt c) as Hp;
    destruct (promptAnswer E c pkt); rewrite Hp;
    intros H; injection H as <-;
    eexists false, _, r; cbn [conn called]; repeat split; auto.
Qed.



Lemma runDeciders_none_concludes E ds lp pkt c : forall l,
  Forall (fun d => decider E d lp pkt c = Ok false c) ds ->
  runDeciders E ds lp pkt {| conn := c; called := l |}
  = Ok (false, profile.DefaultAction lp) {| conn := c; called := (rev ds ++ l)%list |}.
Proof.
  unfold runDeciders. induction ds as [| d rest IH]; intros l Hall.
  - reflexivity.
  - inversion Hall as [| ? ? Hd Hrest]; subst.
    rewrite (runDeciders_skip E d rest lp pkt c l Hd), (IH _ Hrest).
    cbn. rewrite <- app_assoc. reflexivity.
Qed.

(** When no decider of the default pipeline concludes, the default action
    of the profile decides: Permit accepts with "allowed by default
    action", Ask leaves the connection to the prompt, and Block and NotSet
    alike deny with "blocked by default action"; every decider has been
    called, in order. *)
Theorem default_action_decides_last E pkt s lp lp' c1 :
  process.Profile (network.Process (conn s)) = Some lp ->
  updateProfileRevision E lp (conn s) = Ok lp' c1 ->
  viaSystemResolver c1 = false ->
  Forall (fun d => decider E d lp' pkt c1 = Ok false c1) defaultDeciders ->
  DecideOnConnection E pkt s
  = Ok tt {| conn := byDefaultAction E lp' pkt c1;
             called := (rev defaultDeciders ++ called s)%list |}.
Proof.
  intros Hp Hu Hv Hall.
  rewrite DecideOnConnection_eq, Hp, Hu.
  unfold afterRevision, bind at 1, inConn at 1, getConn, get. cbn [conn called].
  unfold viaSystemResolver in Hv.
  assert (Hrun := runDeciders_none_concludes E defaultDeciders lp' pkt c1 (called s) Hall).
  assert (Htail :
    (r <- runDeciders E defaultDeciders lp' pkt ;;
     let '(done, defaultAction) := r in
     if (done : bool) then ret tt
     else match defaultAction with
          | profile.DefaultActionPermit =>
              inConn (Accept "allowed by default action"
                             (profile.CfgOptionDefaultActionKey (keys E)))
          | profile.DefaultActionAsk => inConn (prompt E pkt)
          | _ =>
              inConn (Deny "blocked by default action"
                           (profile.CfgOptionDefaultActionKey (keys E)))
          end)%go {| conn := c1; called := called s |}
    = Ok tt {| conn := byDefaultAction E lp' pkt c1;
               called := (rev defaultDeciders ++ called s)%list |}).
  { unfold bind at 1. rewrite Hrun. unfold byDefaultAction.
    destruct (profile.DefaultAction lp'); try reflexivity.
    unfold inConn. cbn [conn called].
    pose proof (prompt_cases E pkt c1) as Hq.
    destruct (promptAnswer E c1 pkt); rewrite Hq; reflexivity. }
  destruct (network.Type_ c1), (process.IsSystemResolver (network.Process c1));
    try discriminate; exact Htail.
Qed.

Lemma default_action_decides_last_witness :
  let lp := examples.openProfile profile.DefaultActionNotSet false false 7 in
  let c := examples.outbound network.IPConnection
             (Some (examples.entityOf "example.com" netutils.Global))
             (examples.chrome (Some lp)) None 7 in
  exists s', DecideOnConnection examples.quiet None (examples.fresh c) = Ok tt s'
             /\ network.Verdict_ (conn s') = network.VerdictDeny
             /\ network.ReasonMsg (conn s') = "blocked by default action".
Proof.
  intros lp c. eexists. split.
  - apply (default_action_decides_last examples.quiet None (examples.fresh c) lp lp c
             eq_refl eq_refl eq_refl).
    unfold defaultDeciders. repeat constructor.
  - split; reflexivity.
Defined.

(** Where a run of the default pipeline can stop when [dropInbound] has
    not been passed: at one of the first ten deciders. *)
Lemma stops_by_dropInbound pre d post :
  defaultDeciders = (pre ++ d :: post)%list ->
  ~ In dropInbound_ pre ->
  ~ In checkDomainHeuristics_ (d :: pre) /\ ~ In checkAutoPermitRelated_ (d :: pre).
Proof.
  unfold defaultDeciders. intros Heq Hnot.
  do 12 (destruct pre as [| ? pre];
         [ injection Heq as <- <-;
           first [ solve [exfalso; apply Hnot; cbn; tauto]
                 | cbn; split; intros H;
                   repeat (destruct H as [H | H]; [discriminate H |]); exact H ]
         | injection Heq as <- Heq ]).
  destruct pre; discriminate Heq.
Qed.

(** An inbound connection never meets the domain heuristics, the auto
    permit or an undecided end: on return of [DecideOnConnection] neither
    [checkDomainHeuristics] nor [checkAutoPermitRelated] has been called
    and the verdict is Accept, Block, Drop or Deny. *)
Theorem inbound_is_decided_by_dropInbound_at_last E pkt s s' :
  network.Inbound (conn s) = true ->
  DecideOnConnection E pkt s = Ok tt s' ->
  decided (network.Verdict_ (conn s')) = true
  /\ exists l, called s' = (l ++ called s)%list
               /\ ~ In checkDomainHeuristics_ l
               /\ ~ In checkAutoPermitRelated_ l.
Proof.
  intros Hin H. rewrite DecideOnConnection_eq in H. destruct s as [c l0].
  cbn [conn called] in *.
  destruct (process.Profile (network.Process c)) as [lp |] eqn:Hp.
  - destruct (updateProfileRevision_returns E lp c Hp) as (lp' & c1 & Hu & Hrev).
    rewrite Hu in H.
    assert (Hin1 : network.Inbound c1 = true)
      by (destruct Hrev as (_ & _ & _ & Hi & _); congruence).
    destruct (afterRevision_cases _ _ _ _ _ _ H) as (done & act & r & Hr & Hcalled & Hc).
    pose proof (runDeciders_split _ _ _ _ _ _ _ _ Hr) as Hw.
    cbn [conn called] in Hw. unfold pipelineOf in *.
    destruct (viaSystemResolver c1).
    + destruct done.
      * destruct Hw as (pre & d & post & Heq & Hcl & _ & Hd & _).
        apply decider_sets_or_keeps in Hd.
        destruct Hd as (v & msg & key & rctx & Hv & [Hd | [_ Hd]]);
          (split; [rewrite Hc, Hd; exact Hv |]);
          exists (d :: rev pre); rewrite Hcalled, Hcl;
          (split; [reflexivity |]);
          unfold dnsFromSystemResolverDeciders in Heq;
          (destruct pre as [| ? [| ? [| ? pre]]]; cbn in Heq;
           [ injection Heq as <- _ | injection Heq as <- <- _
           | injection Heq as _ _ Heq; discriminate Heq
           | injection Heq as _ _ Heq; discriminate Heq ]);
          cbn; split; intros Hx;
          repeat (destruct Hx as [Hx | Hx]; [discriminate Hx |]); exact Hx.
      * destruct Hw as (Hcl & _). split; [rewrite Hc; reflexivity |].
        exists (rev dnsFromSystemResolverDeciders). rewrite Hcalled, Hcl.
        split; [reflexivity |]. cbn. split; intros Hx;
          repeat (destruct Hx as [Hx | Hx]; [discriminate Hx |]); exact Hx.
    + assert (Hdrop : forall c', dropInbound E lp' pkt c1 <> Ok false c').
      { intros c'. unfold dropInbound. go_unfold. rewrite Hin1. discriminate. }
      destruct done.
      * destruct Hw as (pre & d & post & Heq & Hcl & Hpre & Hd & _).
        assert (Hnot : ~ In dropInbound_ pre).
        { intros Hx. rewrite List.Forall_forall in Hpre. apply Hpre in Hx.
          exact (Hdrop _ Hx). }
        destruct (stops_by_dropInbound pre d post Heq Hnot) as [Hn1 Hn2].
        apply decider_sets_or_keeps in Hd.
        split.
        -- destruct Hd as (v & msg & key & rctx & Hv & [Hd | [_ Hd]]);
             rewrite Hc, Hd; exact Hv.
        -- exists (d :: rev pre). rewrite Hcalled, Hcl. split; [reflexivity |].
           split; intros Hx; [apply Hn1 | apply Hn2];
             destruct Hx as [Hx | Hx]; [left; exact Hx | right | left; exact Hx | right];
             apply in_rev; exact Hx.
      * destruct Hw as (_ & Hall & _). exfalso.
        rewrite List.Forall_forall in Hall.
        apply (Hdrop c1). apply (Hall dropInbound_).
        unfold defaultDeciders. cbn. tauto.
  - injection H as <-. split; [reflexivity |].
    exists []. cbn. repeat split; tauto.
Qed.

Lemma inbound_is_decided_witness :
  let lp := examples.openProfile profile.DefaultActionPermit false true 7 in
  let c := network.withVerdictOnly network.VerdictUndecided
             {| network.Type_ := network.IPConnection; network.Inbound := true;
                network.Entity := Some (examples.entityOf "" netutils.SiteLocal);
                network.Process := examples.chrome (Some lp);
                network.Resolver := None;
                network.Verdict_ := network.VerdictUndecided; network.ReasonMsg := "";
                network.ReasonOptionKey := ""; network.ReasonContext := [];
                network.ProfileRevisionCounter := 7; network.Internal := false;
                network.saveWhenFinished := false |} in
  exists s', DecideOnConnection examples.quiet None (examples.fresh c) = Ok tt s'
             /\ network.Verdict_ (conn s') = network.VerdictDrop
             /\ network.ReasonMsg (conn s') = "incoming connection blocked by default"
             /\ decided (network.Verdict_ (conn s')) = true.
Proof.
  intros lp c. eexists. split; [vm_compute; reflexivity |].
  split; [reflexivity |]. split; [reflexivity |].
  apply (inbound_is_decided_by_dropInbound_at_last examples.quiet None (examples.fresh c) _
           eq_refl ltac:(vm_compute; reflexivity)).
Defined.

Lemma updateProfileRevision_identity E lp c lp' c1 :
  updateProfileRevision E lp c = Ok lp' c1 ->
  sameIdentity c c1 /\ network.Internal c1 = network.Internal c.
Proof.
  unfold updateProfileRevision, Update, sameIdentity. go_unfold.
  destruct (profile_NeedsUpdate E lp).
  - intros H. injection H as <- <-. cbn.
    repeat split; destruct (network.Entity c); reflexivity.
  - destruct (N.eqb_spec (network.ProfileRevisionCounter c) (profile.RevisionCnt lp));
      cbn; intros H; injection H as <- <-; repeat split.
Qed.

Lemma sameInputs_identity c c' : sameInputs c c' -> sameIdentity c c'.
Proof.
  intros (Ht & Hi & He & Hp & Hr). unfold sameIdentity.
  rewrite Ht, Hi, He, Hp, Hr. repeat split.
Qed.

Lemma sameIdentity_trans c c' c'' :
  sameIdentity c c' -> sameIdentity c' c'' -> sameIdentity c c''.
Proof.
  unfold sameIdentity.
  intros (? & ? & ? & ? & ? & ? & ? & ? & ?) (? & ? & ? & ? & ? & ? & ? & ? & ?).
  repeat split; congruence.
Qed.

(** A decision writes the verdict, the bookkeeping and the profile only:
    on return of [DecideOnConnection] the connection has its type,
    direction and resolver, its process has its PID, path, names and
    resolver mark, and its entity has its domain, address and scope; and
    the log of deciders has only grown. *)
Theorem DecideOnConnection_keeps_identity E pkt s s' :
  DecideOnConnection E pkt s = Ok tt s' ->
  sameIdentity (conn s) (conn s')
  /\ exists l, called s' = (l ++ called s)%list.
Proof.
  intros H. rewrite DecideOnConnection_eq in H.
  destruct (process.Profile (network.Process (conn s))) as [lp |] eqn:Hp.
  - destruct (updateProfileRevision_returns E lp (conn s) Hp) as (lp' & c1 & Hu & _).
    rewrite Hu in H. apply updateProfileRevision_identity in Hu. destruct Hu as [Hid _].
    pose proof (afterRevision_frame _ _ _ _ _ H) as [Hi _]. cbn [conn] in Hi.
    split; [exact (sameIdentity_trans _ _ _ Hid (sameInputs_identity _ _ Hi)) |].
    destruct (afterRevision_cases _ _ _ _ _ _ H) as (done & act & r & Hr & Hcalled & _).
    apply runDeciders_called in Hr. destruct Hr as (l & Hl & _).
    exists (rev l). rewrite Hcalled, Hl. reflexivity.
  - injection H as <-. cbn. split; [repeat split | exists []; reflexivity].
Qed.

Lemma DecideOnConnection_keeps_identity_witness :
  exists s', DecideOnConnection examples.quiet None (examples.fresh examples.scenario6)
             = Ok tt s'
             /\ sameIdentity examples.scenario6 (conn s').
Proof.
  eexists. split; [vm_compute; reflexivity |].
  apply (DecideOnConnection_keeps_identity examples.quiet None
           (examples.fresh examples.scenario6) _ ltac:(vm_compute; reflexivity)).
Defined.

Lemma decider_internal E d lp pkt c b r :
  decider E d lp pkt c = Ok b r ->
  network.Internal r = network.Internal c
  \/ (network.Internal r = true
      /\ network.Verdict_ r = network.VerdictAccept
      /\ network.ReasonOptionKey r = noReasonOptionKey
      /\ (network.ReasonMsg r = "connection by Portmaster"
          \/ network.ReasonMsg r = "process internal connection")).
Proof.
  revert b r.
  destruct d; cbv delta [decider checkPortmasterConnection checkSelfCommunication
    checkConnectionType checkConnectionScope checkEndpointLists checkResolverScope
    checkConnectivityDomain checkBypassPrevention checkFilterLists dropInbound
    checkDomainHeuristics checkAutoPermitRelated checkRelation strings.slice0];
    go_unfold; cbv beta iota zeta;
    repeat (branch; cbv beta iota zeta; try discriminate);
    intros ? ? H; try discriminate; injection H as <- <-;
    first [ left; reflexivity | right; cbn; tauto ].
Qed.

(** The Internal mark is set by [checkPortmasterConnection] and
    [checkSelfCommunication] only, together with their Accept: when
    [DecideOnConnection] returns with the mark changed, the mark is set, the
    verdict is Accept without an option key, and the reason is "connection
    by Portmaster" or "process internal connection". *)
Theorem Internal_only_with_own_connection E pkt s s' :
  DecideOnConnection E pkt s = Ok tt s' ->
  network.Internal (conn s') <> network.Internal (conn s) ->
  network.Internal (conn s') = true
  /\ network.Verdict_ (conn s') = network.VerdictAccept
  /\ network.ReasonOptionKey (conn s') = noReasonOptionKey
  /\ (network.ReasonMsg (conn s') = "connection by Portmaster"
      \/ network.ReasonMsg (conn s') = "process internal connection").
Proof.
  intros H Hne. rewrite DecideOnConnection_eq in H.
  destruct (process.Profile (network.Process (conn s))) as [lp |] eqn:Hp.
  - destruct (updateProfileRevision_returns E lp (conn s) Hp) as (lp' & c1 & Hu & _).
    rewrite Hu in H. apply updateProfileRevision_identity in Hu. destruct Hu as [_ Hint].
    destruct (afterRevision_cases _ _ _ _ _ _ H) as (done & act & r & Hr & _ & Hc).
    apply runDeciders_split in Hr. cbn [conn] in Hr.
    destruct done.
    + destruct Hr as (pre & d & post & _ & _ & _ & Hd & _).
      apply decider_internal in Hd. rewrite <- Hc in Hd.
      destruct Hd as [Hd | Hd]; [| exact Hd].
      exfalso. apply Hne. congruence.
    + exfalso. apply Hne. rewrite <- Hint.
      destruct (viaSystemResolver c1); [rewrite Hc; reflexivity |].
      rewrite Hc. unfold byDefaultAction.
      destruct (profile.DefaultAction lp'); try reflexivity.
      destruct (promptAnswer E c1 pkt); reflexivity.
  - injection H as <-. exfalso. apply Hne. reflexivity.
Qed.

Lemma Internal_only_with_own_connection_witness :
  let lp := examples.openProfile profile.DefaultActionBlock false false 7 in
  let c := examples.outbound network.IPConnection
             (Some (examples.entityOf "" netutils.Global))
             (examples.proc 4242 "/usr/bin/portmaster-core" "portmaster" "portmaster-core"
                            false (Some lp)) None 7 in
  exists s', DecideOnConnection examples.quiet None (examples.fresh c) = Ok tt s'
             /\ network.Internal (conn s') = true
             /\ network.Verdict_ (conn s') = network.VerdictAccept.
Proof.
  intros lp c. eexists. split; [vm_compute; reflexivity |].
  destruct (Internal_only_with_own_connection examples.quiet None (examples.fresh c) _
              ltac:(vm_compute; reflexivity) ltac:(vm_compute; discriminate))
    as (Hi & Hv & _).
  split; assumption.
Defined.

(** With an entity, and an eTLD+1 that is never longer than its domain, no
    decider panics. *)
Lemma decider_returns E d lp pkt c e :
  etld1NotLonger E ->
  network.Entity c = Some e ->
  exists b r, decider E d lp pkt c = Ok b r.
Proof.
  intros Hetld He.
  destruct d; cbv delta [decider checkPortmasterConnection checkSelfCommunication
    checkConnectionType checkConnectionScope checkEndpointLists checkResolverScope
    checkConnectivityDomain checkBypassPrevention checkFilterLists dropInbound
    checkDomainHeuristics checkAutoPermitRelated checkRelation strings.slice0];
    go_unfold; cbv beta iota zeta;
    repeat (branch; cbv beta iota zeta; try congruence);
    try (eexists _, _; reflexivity).
  all: match goal with
       | Hs : publicsuffix_EffectiveTLDPlusOne _ _ = Some _,
         Hl : (_ <=? _)%nat = false |- _ =>
           apply Hetld in Hs; apply Nat.leb_gt in Hl; lia
       end.
Qed.

Lemma runDeciders_returns E ds lp pkt c e :
  etld1NotLonger E ->
  network.Entity c = Some e ->
  forall l, exists a r, runDeciders E ds lp pkt {| conn := c; called := l |} = Ok a r.
Proof.
  intros Hetld He. unfold runDeciders. induction ds as [| d rest IH]; intros l.
  - eexists _, _. reflexivity.
  - destruct (decider_returns E d lp pkt c e Hetld He) as (b & r & Hd).
    destruct b.
    + rewrite (runDeciders_stop E d rest lp pkt c l r Hd). eexists _, _. reflexivity.
    + pose proof (decider_sets_or_keeps _ _ _ _ _ _ _ Hd) as Hc. cbn in Hc. subst r.
      rewrite (runDeciders_skip E d rest lp pkt c l Hd). apply IH.
Qed.

(** [DecideOnConnection] returns, without a panic, on every connection
    that has an entity, provided the eTLD+1 the public suffix list answers
    with is never longer than the domain asked for (the one slice of the
    code stays in bounds). *)
Theorem DecideOnConnection_returns E pkt s e :
  etld1NotLonger E ->
  network.Entity (conn s) = Some e ->
  exists s', DecideOnConnection E pkt s = Ok tt s'.
Proof.
  intros Hetld He. rewrite DecideOnConnection_eq. destruct s as [c l].
  cbn [conn called] in *.
  destruct (process.Profile (network.Process c)) as [lp |] eqn:Hp;
    [| eexists; reflexivity].
  destruct (updateProfileRevision_returns E lp c Hp) as (lp' & c1 & Hu & Hrev).
  rewrite Hu.
  destruct (revised_entity _ _ _ _ Hrev He) as (e1 & He1 & _).
  unfold afterRevision, bind at 1, inConn at 1, getConn, get. cbn [conn called].
  destruct (network.Type_ c1), (process.IsSystemResolver (network.Process c1));
    unfold bind at 1;
    match goal with
    | |- context [runDeciders E ?ds lp' pkt _] =>
        destruct (runDeciders_returns E ds lp' pkt c1 e1 Hetld He1 l)
          as ([done act] & r & Hr)
    end;
    rewrite Hr; cbn [fst snd negb]; destruct done; cbn [negb];
    try (eexists; reflexivity);
    destruct act; try (eexists; reflexivity);
    unfold inConn; pose proof (prompt_cases E pkt (conn r)) as Hq;
    destruct (promptAnswer E (conn r) pkt); rewrite Hq; eexists; reflexivity.
Qed.

Lemma DecideOnConnection_returns_witness :
  exists s', DecideOnConnection examples.quiet None (examples.fresh examples.scenario6)
             = Ok tt s'.
Proof.
  apply (DecideOnConnection_returns examples.quiet None
           (examples.fresh examples.scenario6)
           (examples.entityOf "mail.google.com" netutils.Global)).
  - intros domain etld1 H. discriminate H.
  - reflexivity.
Defined.

(** On a nil entity [checkConnectivityDomain] panics, and neither
    [checkConnectionType] nor [checkResolverScope] concludes. *)
Lemma nil_entity_deciders E lp pkt c :
  network.Entity c = None ->
  (forall b r, checkConnectivityDomain E lp pkt c <> Ok b r)
  /\ (forall r, checkConnectionType E lp pkt c <> Ok true r)
  /\ (forall r, checkResolverScope E lp pkt c <> Ok true r).
Proof.
  intros He. unfold checkConnectivityDomain, checkConnectionType, checkResolverScope.
  go_unfold. rewrite He. cbv beta iota.
  split; [| split]; intros;
    repeat (branch; cbv beta iota; try rewrite He; try discriminate);
    discriminate.
Qed.

(** A connection without an entity, under a profile, comes back from
    [DecideOnConnection] only when [checkPortmasterConnection],
    [checkSelfCommunication], [checkConnectionScope] or
    [checkEndpointLists] has concluded, and that decider is the last one
    called; every other course ends in the panic of a nil dereference, so
    the default action is never applied to it. *)
Theorem nil_entity_is_decided_early E pkt s lp s' :
  network.Entity (conn s) = None ->
  process.Profile (network.Process (conn s)) = Some lp ->
  DecideOnConnection E pkt s = Ok tt s' ->
  exists d rest,
    called s' = d :: rest
    /\ (d = checkPortmasterConnection_ \/ d = checkSelfCommunication_
        \/ d = checkConnectionScope_ \/ d = checkEndpointLists_)
    /\ decided (network.Verdict_ (conn s')) = true.
Proof.
  intros He Hp H. rewrite DecideOnConnection_eq, Hp in H.
  destruct (updateProfileRevision_returns E lp (conn s) Hp) as (lp' & c1 & Hu & Hrev).
  rewrite Hu in H.
  assert (He1 : network.Entity c1 = None).
  { destruct Hrev as (_ & _ & _ & _ & _ & _ & _ & _ & Hd). rewrite He in Hd.
    destruct (network.Entity c1); [discriminate | reflexivity]. }
  destruct (nil_entity_deciders E lp' pkt c1 He1) as (Hcd & Hct & Hrs).
  destruct (afterRevision_cases _ _ _ _ _ _ H) as (done & act & r & Hr & Hcalled & Hc).
  apply runDeciders_split in Hr. cbn [conn called] in Hr.
  unfold pipelineOf in Hr.
  destruct done.
  - destruct Hr as (pre & d & post & Heq & Hcl & Hpre & Hd & _).
    rewrite List.Forall_forall in Hpre.
    assert (Hdec : decided (network.Verdict_ (conn s')) = true).
    { apply decider_sets_or_keeps in Hd. rewrite Hc.
      destruct Hd as (v & msg & key & rctx & Hv & [-> | [_ ->]]); exact Hv. }
    exists d, (rev pre ++ called s)%list. rewrite Hcalled, Hcl.
    split; [reflexivity |]. split; [| exact Hdec].
    destruct (viaSystemResolver c1);
      unfold dnsFromSystemResolverDeciders, defaultDeciders in Heq;
      split_cases Heq pre;
      try tauto;
      try (exfalso; first [ exact (Hcd _ _ Hd) | exact (Hct _ Hd) | exact (Hrs _ Hd) ]);
      exfalso; apply (Hcd false c1), (Hpre checkConnectivityDomain_); cbn; tauto.
  - destruct Hr as (_ & Hall & _). exfalso.
    rewrite List.Forall_forall in Hall. apply (Hcd false c1), (Hall checkConnectivityDomain_).
    destruct (viaSystemResolver c1); cbn; tauto.
Qed.

Lemma nil_entity_is_decided_early_witness :
  let lp := examples.openProfile profile.DefaultActionPermit false false 7 in
  let c := examples.outbound network.IPConnection None
             (examples.proc 4242 "/usr/bin/portmaster-core" "portmaster" "portmaster-core"
                            false (Some lp)) None 7 in
  exists s', DecideOnConnection examples.quiet None (examples.fresh c) = Ok tt s'
             /\ called s' = [checkPortmasterConnection_].
Proof.
  intros lp c. eexists. split; [vm_compute; reflexivity |].
  destruct (nil_entity_is_decided_early examples.quiet None (examples.fresh c) lp _
              eq_refl eq_refl ltac:(vm_compute; reflexivity))
    as (d & rest & Hcalled & _).
  reflexivity.
Defined.

(** Without an entity and without such an early conclusion the call
    panics: here an outbound IP connection of an ordinary process. *)
Example nil_entity_panics :
  let lp := examples.openProfile profile.DefaultActionPermit false false 7 in
  let c := examples.outbound network.IPConnection None
             (examples.chrome (Some lp)) None 7 in
  DecideOnConnection examples.quiet None (examples.fresh c)
  = Panic "nil pointer dereference".
Proof. reflexivity. Qed.

(** *** The loop of checkRelation *)

(** The first comparison above one half that [matchLoop] meets decides:
    the pair it returns is a domain element and a kept path segment, the
    process name or the exec name whose similarity is above one half, and
    no earlier domain element is similar to any of them; when it returns
    nothing, no pair at all is. *)
Theorem matchLoop_finds_first_match E domainElements pathElements proc :
  let candidates := (pathElements ++ [process.Name proc; process.ExecName proc])%list in
  let similar de pe := Qgtb (levenshtein_Match E de pe) (1 # 2) in
  match matchLoop E domainElements pathElements proc with
  | Some (de, pe) =>
      exists pre post,
        domainElements = (pre ++ de :: post)%list
        /\ In pe candidates
        /\ similar de pe = true
        /\ forall de' pe', In de' pre -> In pe' candidates -> similar de' pe' = false
  | None =>
      forall de pe, In de domainElements -> In pe candidates -> similar de pe = false
  end.
Proof.
  cbv zeta.
  assert (Hone : forall de,
    match matchProcessElement E de pathElements proc with
    | Some pe =>
        In pe (pathElements ++ [process.Name proc; process.ExecName proc])%list
        /\ Qgtb (levenshtein_Match E de pe) (1 # 2) = true
    | None =>
        forall pe, In pe (pathElements ++ [process.Name proc; process.ExecName proc])%list ->
                   Qgtb (levenshtein_Match E de pe) (1 # 2) = false
    end).
  { intros de. unfold matchProcessElement.
    destruct (List.find _ pathElements) as [pe |] eqn:Hf.
    - apply List.find_some in Hf. destruct Hf as [Hin Hs].
      split; [apply in_or_app; left; exact Hin | exact Hs].
    - destruct (Qgtb (levenshtein_Match E de (process.Name proc)) (1 # 2)) eqn:Hn.
      + split; [apply in_or_app; right; cbn; tauto | exact Hn].
      + destruct (Qgtb (levenshtein_Match E de (process.ExecName proc)) (1 # 2)) eqn:Hx.
        * split; [apply in_or_app; right; cbn; tauto | exact Hx].
        * intros pe Hin. apply in_app_or in Hin. destruct Hin as [Hin | Hin].
          -- exact (List.find_none _ _ Hf pe Hin).
          -- cbn in Hin. destruct Hin as [<- | [<- | []]]; assumption. }
  induction domainElements as [| de rest IH]; cbn [matchLoop].
  - intros de pe [].
  - specialize (Hone de).
    destruct (matchProcessElement E de pathElements proc) as [pe |].
    + exists [], rest. destruct Hone as [Hin Hs]. repeat split; try assumption.
      intros de' pe' [].
    + destruct (matchLoop E rest pathElements proc) as [[de0 pe0] |].
      * destruct IH as (pre & post & -> & Hin & Hs & Hpre).
        exists (de :: pre), post. repeat split; try assumption.
        intros de' pe' [<- | Hin'] Hpe; [apply Hone; exact Hpe | apply Hpre; assumption].
      * intros de' pe' [<- | Hin'] Hpe; [apply Hone; exact Hpe | apply IH; assumption].
Qed.

(** ** Package helper *)

Example Ext_of_archive :
  filepath.Ext "/opt/updates/linux_amd64/app/portmaster-app_v0-2-3.zip" = ".zip".
Proof. reflexivity. Qed.

Example Ext_stops_at_separator : filepath.Ext "/opt/updates.d/app" = "".
Proof. reflexivity. Qed.

Example TrimSuffix_of_archive :
  helper.TrimSuffix "/opt/app/portmaster-app_v0-2-3.zip" ".zip"
  = "/opt/app/portmaster-app_v0-2-3".
Proof. reflexivity. Qed.

Lemma string_cons_append (x : ascii) (a b : string) :
  String x a ++ b = String x (a ++ b).
Proof. reflexivity. Qed.

Lemma append_cancel_l (p a b : string) : p ++ a = p ++ b -> a = b.
Proof.
  induction p as [| c p IH]; intros H; [exact H |].
  rewrite !string_cons_append in H. injection H as H. exact (IH H).
Qed.

Lemma string_append_assoc (a b c : string) : (a ++ b) ++ c = a ++ (b ++ c).
Proof.
  induction a as [| x a IH]; [reflexivity |].
  rewrite !string_cons_append. f_equal. exact IH.
Qed.

Lemma string_length_append (a b : string) :
  String.length (a ++ b) = (String.length a + String.length b)%nat.
Proof.
  induction a as [| x a IH]; [reflexivity |].
  rewrite string_cons_append. cbn [String.length]. rewrite IH. reflexivity.
Qed.

Lemma substring_whole (s : string) : String.substring 0 (String.length s) s = s.
Proof. induction s as [| c s IH]; cbn; [reflexivity |]. f_equal. exact IH. Qed.

Lemma substring_skip_prefix (p s : string) :
  String.substring (String.length p) (String.length s) (p ++ s) = s.
Proof.
  induction p as [| c p IH]; [apply substring_whole |].
  rewrite string_cons_append. exact IH.
Qed.

(** [PlatformIdentifier] only puts the platform in front: the identifier
    is read back behind a prefix of known length, so two identifiers are
    never confused on one platform. *)
Theorem PlatformIdentifier_round_trip E identifier :
  String.substring (String.length (helper.GOOS E) + String.length (helper.GOARCH E) + 2)
                   (String.length identifier)
                   (helper.PlatformIdentifier E identifier)
  = identifier
  /\ forall other,
       helper.PlatformIdentifier E identifier = helper.PlatformIdentifier E other ->
       identifier = other.
Proof.
  unfold helper.PlatformIdentifier. split.
  - replace (helper.GOOS E ++ "_" ++ helper.GOARCH E ++ "/" ++ identifier)
      with ((helper.GOOS E ++ "_" ++ helper.GOARCH E ++ "/") ++ identifier).
    + replace (String.length (helper.GOOS E) + String.length (helper.GOARCH E) + 2)%nat
        with (String.length (helper.GOOS E ++ "_" ++ helper.GOARCH E ++ "/")).
      * apply substring_skip_prefix.
      * rewrite !string_length_append. cbn. lia.
    + rewrite !string_append_assoc. reflexivity.
  - intros other H.
    do 4 apply append_cancel_l in H. exact H.
Qed.

Lemma PlatformIdentifier_round_trip_witness :
  helper.PlatformIdentifier (examples.linuxBox (inl "1") false) "app/portmaster-app.zip"
  <> helper.PlatformIdentifier (examples.linuxBox (inl "1") false)
       "all/ui/modules/portmaster.zip".
Proof.
  intros H.
  apply (proj2 (PlatformIdentifier_round_trip (examples.linuxBox (inl "1") false)
                  "app/portmaster-app.zip")) in H.
  discriminate H.
Defined.

(** The check of the sysctl reads one file and looks at its first byte. *)
Lemma checkSysctl_userns E s :
  helper.checkSysctl E "kernel.unprivileged_userns_clone" "1" s
  = Ok (usernsCloneEnabled E)
       {| helper.pmElectronUpdate := helper.pmElectronUpdate s;
          helper.effects :=
            helper.ReadFile
              (helper.filepath_Join E ["/proc"; "sys"; "kernel"; "unprivileged_userns_clone"])
            :: helper.effects s |}.
Proof.
  unfold usernsCloneEnabled. helper_unfold.
  change (strings.Split "kernel.unprivileged_userns_clone" ".")
    with ["kernel"; "unprivileged_userns_clone"].
  cbn [app helper.pmElectronUpdate helper.effects].
  destruct (helper.ioutil_ReadFile E _) as [[| c rest] | e]; reflexivity.
Qed.

Lemma sandbox_untouched E s :
  sandboxFixNeeded E s = false ->
  exists s',
    helper.EnsureChromeSandboxPermissions E s = Ok None s'
    /\ helper.pmElectronUpdate s' = helper.pmElectronUpdate s
    /\ List.filter isChmodOrGetFile (helper.effects s')
       = List.filter isChmodOrGetFile (helper.effects s)
    /\ (helper.GOOS E <> "linux" -> s' = s).
Proof.
  unfold sandboxFixNeeded. intros Hn.
  unfold helper.EnsureChromeSandboxPermissions.
  destruct (String.eqb_spec (helper.GOOS E) "linux") as [Hl | Hl]; cbn [negb].
  - unfold bind at 1. rewrite checkSysctl_userns.
    destruct (usernsCloneEnabled E); cbn [negb andb] in *.
    + eexists. split; [reflexivity |]. repeat split. contradiction.
    + helper_unfold. cbn [helper.pmElectronUpdate helper.effects].
      destruct (helper.pmElectronUpdate s) as [f |]; [| discriminate].
      rewrite Hn. cbn [negb].
      eexists. split; [reflexivity |]. repeat split. contradiction.
  - exists s. repeat split.
Qed.

(** [EnsureChromeSandboxPermissions] leaves the sandbox alone when there is
    nothing to fix: off Linux it does nothing at all, not even read the
    sysctl; with unprivileged user namespaces enabled, or with the cached
    app file still up to date, it returns nil having looked up no file and
    changed no mode, and the cached file stays. *)
Theorem sandbox_is_left_alone E s :
  sandboxFixNeeded E s = false ->
  exists s',
    helper.EnsureChromeSandboxPermissions E s = Ok None s'
    /\ helper.pmElectronUpdate s' = helper.pmElectronUpdate s
    /\ List.filter isChmodOrGetFile (helper.effects s')
       = List.filter isChmodOrGetFile (helper.effects s)
    /\ (helper.GOOS E <> "linux" -> s' = s).
Proof. exact (sandbox_untouched E s). Qed.

Lemma sandbox_is_left_alone_witness :
  exists s',
    helper.EnsureChromeSandboxPermissions
      (examples.linuxBox (inl ("1" ++ String "010" "")) true) examples.noHelperState
    = Ok None s'
    /\ List.filter isChmodOrGetFile (helper.effects s') = [].
Proof.
  destruct (sandbox_is_left_alone
              (examples.linuxBox (inl ("1" ++ String "010" "")) true)
              examples.noHelperState eq_refl)
    as (s' & H & _ & Hf & _).
  exists s'. split; [exact H | exact Hf].
Defined.

(** When there is something to fix and the call returns nil, it has looked
    up the app archive, cached it, and set mode 0755 with the setuid bit
    on chrome-sandbox under the archive's path without its extension, once.
    And the fix is not repeated: as long as no upgrade of the cached file
    is available, the next call looks up no file and changes no mode. *)
Theorem sandbox_is_fixed_once E s s1 :
  sandboxFixNeeded E s = true ->
  helper.EnsureChromeSandboxPermissions E s = Ok None s1 ->
  exists f,
    helper.reg_GetFile E (helper.PlatformIdentifier E "app/portmaster-app.zip")
    = (Some f, None)
    /\ helper.pmElectronUpdate s1 = Some f
    /\ List.filter isChmodOrGetFile (helper.effects s1)
       = (helper.Chmod
            (helper.filepath_Join E
               [helper.TrimSuffix (helper.Path f) (filepath.Ext (helper.Path f));
                "chrome-sandbox"])
            (Z.lor 493 (helper.os_ModeSetuid E))
          :: helper.GetFile (helper.PlatformIdentifier E "app/portmaster-app.zip")
          :: List.filter isChmodOrGetFile (helper.effects s))
    /\ (helper.UpgradeAvailable E f = false ->
        exists s2,
          helper.EnsureChromeSandboxPermissions E s1 = Ok None s2
          /\ List.filter isChmodOrGetFile (helper.effects s2)
             = List.filter isChmodOrGetFile (helper.effects s1)).
Proof.
  unfold sandboxFixNeeded. intros Hn H.
  apply andb_prop in Hn. destruct Hn as [Hn Hup].
  apply andb_prop in Hn. destruct Hn as [Hl Hen].
  assert (Hdone : exists f,
    helper.reg_GetFile E (helper.PlatformIdentifier E "app/portmaster-app.zip")
    = (Some f, None)
    /\ helper.pmElectronUpdate s1 = Some f
    /\ List.filter isChmodOrGetFile (helper.effects s1)
       = (helper.Chmod
            (helper.filepath_Join E
               [helper.TrimSuffix (helper.Path f) (filepath.Ext (helper.Path f));
                "chrome-sandbox"])
            (Z.lor 493 (helper.os_ModeSetuid E))
          :: helper.GetFile (helper.PlatformIdentifier E "app/portmaster-app.zip")
          :: List.filter isChmodOrGetFile (helper.effects s))).
  { unfold helper.EnsureChromeSandboxPermissions in H. rewrite Hl in H. cbn [negb] in H.
    unfold bind at 1 in H. rewrite checkSysctl_userns in H.
    destruct (usernsCloneEnabled E); [discriminate Hen |].
    unfold helper.sandboxMode in H. helper_unfold.
    cbn [helper.pmElectronUpdate helper.effects] in H.
    assert (Hc : match helper.pmElectronUpdate s with
                 | Some f => negb (helper.UpgradeAvailable E f)
                 | None => false
                 end = false).
    { destruct (helper.pmElectronUpdate s); [rewrite Hup |]; reflexivity. }
    rewrite Hc in H.
    destruct (helper.reg_GetFile E _) as [[f |] [e |]]; try discriminate.
    destruct (helper.os_Chmod E _ _); [discriminate |].
    injection H as <-. exists f. repeat split. }
  destruct Hdone as (f & Hg & Hpm & Hf). exists f.
  split; [exact Hg |]. split; [exact Hpm |]. split; [exact Hf |].
  intros Hno.
  destruct (sandbox_untouched E s1) as (s2 & H2 & _ & Hf2 & _).
  { unfold sandboxFixNeeded. rewrite Hpm, Hno. apply andb_false_r. }
  exists s2. split; assumption.
Qed.

Lemma sandbox_is_fixed_once_witness :
  let E := examples.linuxBox (inl ("0" ++ String "010" "")) false in
  exists s1 s2,
    helper.EnsureChromeSandboxPermissions E examples.noHelperState = Ok None s1
    /\ helper.EnsureChromeSandboxPermissions E s1 = Ok None s2
    /\ List.filter isChmodOrGetFile (helper.effects s2)
       = [helper.Chmod "/opt/updates/linux_amd64/app/portmaster-app_v0-2-3/chrome-sandbox"
            8389101;
          helper.GetFile "linux_amd64/app/portmaster-app.zip"].
Proof.
  intros E.
  assert (H1 : exists s1,
            helper.EnsureChromeSandboxPermissions E examples.noHelperState = Ok None s1)
    by (eexists; vm_compute; reflexivity).
  destruct H1 as (s1 & H1). exists s1.
  destruct (sandbox_is_fixed_once E examples.noHelperState s1 eq_refl H1)
    as (f & Hg & _ & Hf & Hnext).
  vm_compute in Hg. injection Hg as <-.
  destruct (Hnext eq_refl) as (s2 & H2 & Hf2).
  exists s2. split; [exact H1 |]. split; [exact H2 |].
  rewrite Hf2, Hf. reflexivity.
Defined.

(** ** The update command *)

(** Whatever the registry held before, [downloadUpdates] leaves it with
    the mandatory updates of the platform (eight on Windows, five
    elsewhere), each the platform's identifier of a resource except the
    user interface, which is the same on all platforms; and what is
    unpacked automatically is the app archive, which is mandatory. *)
Theorem downloadUpdates_sets_the_registry E s err s' :
  updatecmd.downloadUpdates E s = Ok err s' ->
  let reg := updatecmd.registry s' in
  updatecmd.AutoUnpack reg = [updatecmd.PlatformIdentifier E "app/portmaster-app.zip"]
  /\ incl (updatecmd.AutoUnpack reg) (updatecmd.MandatoryUpdates reg)
  /\ In "all/ui/modules/portmaster.zip" (updatecmd.MandatoryUpdates reg)
  /\ List.length (updatecmd.MandatoryUpdates reg)
     = (if updatecmd.onWindows E then 8 else 5)%nat
  /\ forall x, In x (updatecmd.MandatoryUpdates reg) ->
               x = "all/ui/modules/portmaster.zip"
               \/ exists identifier, x = updatecmd.PlatformIdentifier E identifier.
Proof.
  cbv zeta. revert err s'. cmd_unfold.
  repeat (branch; cbn [updatecmd.registry updatecmd.events updatecmd.helperSt
                       updatecmd.MandatoryUpdates updatecmd.AutoUnpack app];
          try discriminate);
    intros ? ? H; try discriminate; injection H as <- <-;
    cbn [updatecmd.registry updatecmd.MandatoryUpdates updatecmd.AutoUnpack app];
    (split; [reflexivity |]);
    (split; [intros x [<- | []]; cbn; tauto |]);
    (split; [cbn; tauto |]);
    (split; [reflexivity |]);
    intros x Hx; cbn in Hx;
    repeat (destruct Hx as [<- | Hx]; [first [left; reflexivity | right; eexists; reflexivity] |]);
    destruct Hx.
Qed.

Lemma downloadUpdates_sets_the_registry_witness :
  exists s', updatecmd.downloadUpdates (examples.updateEnv false false None)
               examples.noUpdateState = Ok None s'
             /\ updatecmd.MandatoryUpdates (updatecmd.registry s')
                = ["linux_amd64/core/portmaster-core"; "linux_amd64/start/portmaster-start";
                   "linux_amd64/notifier/portmaster-notifier";
                   "linux_amd64/app/portmaster-app.zip"; "all/ui/modules/portmaster.zip"].
Proof.
  eexists. split; [vm_compute; reflexivity |].
  pose proof (downloadUpdates_sets_the_registry (examples.updateEnv false false None)
                examples.noUpdateState None _ ltac:(vm_compute; reflexivity)) as H.
  reflexivity.
Defined.



(** [purge] cannot fail: it returns nil, having purged with three versions
    kept and shut logging down last, also when logging did not start. *)
Theorem purge_always_purges E s :
  exists s' started,
    updatecmd.purge E s = Ok None s'
    /\ updatecmd.events s'
       = (updatecmd.LogShutdown :: updatecmd.Purge 3 :: started ++ updatecmd.events s)%list
    /\ (forall e, In e started ->
          e = updatecmd.LogStart \/ e = updatecmd.LogSetLogLevel
          \/ exists msg, e = updatecmd.Printf msg)
    /\ updatecmd.registry s' = updatecmd.registry s
    /\ updatecmd.helperSt s' = updatecmd.helperSt s.
Proof.
  cmd_unfold. destruct (updatecmd.log_Start E) as [e |].
  - eexists _, [_; _; _]. split; [reflexivity |]. split; [reflexivity |].
    split; [| split; reflexivity].
    intros x [<- | [<- | [<- | []]]]; eauto.
  - eexists _, [_; _]. split; [reflexivity |]. split; [reflexivity |].
    split; [| split; reflexivity].
    intros x [<- | [<- | []]]; eauto.
Qed.

(** ** Package pmtesting *)

(** [TestMain] always ends in one exit, and it exits with 0 exactly when
    the data root was initialised, the modules started, the tests returned
    0 and the modules shut down with status 0: a failed start or a failed
    shutdown is never hidden by passing tests. *)
Theorem TestMain_exit_code E s :
  let tmpDir := pmtesting.filepath_Join E [pmtesting.os_TempDir E; "portmaster-testing"] in
  exists code new,
    pmtesting.TestMain E s = Ok code (pmtesting.Exit code :: new ++ s)%list
    /\ (forall c, ~ In (pmtesting.Exit c) new)
    /\ (code = 0 <->
        pmtesting.dataroot_Initialize E tmpDir 493 = None
        /\ pmtesting.modules_Start E = None
        /\ pmtesting.m_Run E = 0
        /\ pmtesting.modules_GetExitStatusCode E = 0).
Proof. testing_run. Qed.



Lemma TestMain_exit_code_witness :
  exists code new,
    pmtesting.TestMain (examples.testEnv None 0 3) []
    = Ok code (pmtesting.Exit code :: new ++ [])%list
    /\ code <> 0.
Proof.
  destruct (TestMain_exit_code (examples.testEnv None 0 3) [])
    as (code & new & H & _ & Hzero).
  exists code, new. split; [exact H |].
  intros Hc. apply Hzero in Hc. destruct Hc as (_ & _ & _ & Hs). discriminate Hs.
Defined.

Example TestMain_failed_shutdown_exit_code :
  exists events, pmtesting.TestMain (examples.testEnv None 0 3) [] = Ok 3 events.
Proof. eexists. vm_compute. reflexivity. Qed.

(** ** Further properties of the filterlists module *)


Lemma start_cases {A} (E : filterlists.Env A)
    (s : filterlists.St A) :
  validSignal (filterlists.vars s) ->
  match filterlists.start E s with
  | Ok err s' => err = None /\ validSignal (filterlists.vars s')
  | Panic msg =>
      msg = "close of closed channel"
      /\ filterlists.isLoaded (filterlists.vars s) = true
      /\ (exists ver, filterlists.getCacheDatabaseVersion E = inl ver)
      /\ snd (filterlists.loadFromCache E (filterlists.defaultFilter (filterlists.vars s)))
         = None
  end.
Proof.
  unfold validSignal, filterlists.isLoaded. destruct s as [v n]. intros Hv.
  cbn [filterlists.vars] in *.
  destruct (lookup_lt_is_Some_2 _ _ Hv) as [b Hb].
  lists_unfold. destruct (filterlists.getCacheDatabaseVersion E) as [ver | e]; cbn.
  - destruct (filterlists.loadFromCache E (filterlists.defaultFilter v)) as [f [e |]]; cbn.
    + split; [reflexivity | exact Hv].
    + rewrite Hb. destruct b; cbn.
      * repeat split. exists ver. reflexivity.
      * split; [reflexivity |]. rewrite length_insert. exact Hv.
  - split; [reflexivity | exact Hv].
Qed.

(** [start] never returns an error, and it panics in one case only: when
    the cache loads although the signal has fired already (a start without
    a stop in between); the panic is Go's close of a closed channel. *)
Theorem start_panics_only_on_a_fired_signal {A} (E : filterlists.Env A)
    (s : filterlists.St A) :
  validSignal (filterlists.vars s) ->
  match filterlists.start E s with
  | Ok err s' => err = None /\ validSignal (filterlists.vars s')
  | Panic msg =>
      msg = "close of closed channel"
      /\ filterlists.isLoaded (filterlists.vars s) = true
      /\ (exists ver, filterlists.getCacheDatabaseVersion E = inl ver)
      /\ snd (filterlists.loadFromCache E (filterlists.defaultFilter (filterlists.vars s)))
         = None
  end.
Proof. exact (start_cases E s). Qed.

Lemma start_panics_only_on_a_fired_signal_witness :
  let E := examples.listsEnv (inl "v1") None true in
  exists s1, filterlists.start E (filterlists.initial 0%nat) = Ok None s1
             /\ filterlists.start E s1 = Panic "close of closed channel".
Proof.
  intros E. eexists. split; [vm_compute; reflexivity |].
  match goal with
  | |- filterlists.start E ?s1 = _ =>
      pose proof (start_panics_only_on_a_fired_signal E s1 ltac:(vm_compute; lia)) as H;
      destruct (filterlists.start E s1) as [err s2 |] eqn:Hs
  end.
  - vm_compute in Hs. discriminate Hs.
  - destruct H as [-> _]. reflexivity.
Defined.

(** [stop] makes a restart safe: whatever the state, [stop] followed by
    [start] returns without a panic, and afterwards the signal has fired
    exactly when the cache database version was read and the bloom filters
    loaded; the channel that was the signal before [stop] is as it was. *)
Theorem stop_then_start_is_safe {A} (E : filterlists.Env A) (s : filterlists.St A) :
  exists s1 s2,
    filterlists.stop s = Ok None s1
    /\ filterlists.start E s1 = Ok None s2
    /\ (filterlists.isLoaded (filterlists.vars s2) = true <->
        (exists ver, filterlists.getCacheDatabaseVersion E = inl ver)
        /\ snd (filterlists.loadFromCache E (filterlists.defaultFilter (filterlists.vars s)))
           = None)
    /\ forall i : nat,
         (i < List.length (filterlists.chans (filterlists.vars s)))%nat ->
         filterlists.chans (filterlists.vars s2) !! i
         = filterlists.chans (filterlists.vars s) !! i.
Proof.
  destruct s as [v n]. cbn [filterlists.vars].
  assert (Hnew : (filterlists.chans v ++ [false])%list !! List.length (filterlists.chans v)
                 = Some false).
  { rewrite lookup_app_r by lia. rewrite Nat.sub_diag. reflexivity. }
  cut (exists s1, filterlists.stop {| filterlists.vars := v; filterlists.listUpdates := n |}
                  = Ok None s1
                  /\ exists s2, filterlists.start E s1 = Ok None s2
                     /\ (filterlists.isLoaded (filterlists.vars s2) = true <->
                         (exists ver, filterlists.getCacheDatabaseVersion E = inl ver)
                         /\ snd (filterlists.loadFromCache E (filterlists.defaultFilter v))
                            = None)
                     /\ forall i : nat,
                          (i < List.length (filterlists.chans v))%nat ->
                          filterlists.chans (filterlists.vars s2) !! i
                          = filterlists.chans v !! i).
  { intros (s1 & H1 & s2 & H2). exists s1, s2. split; [exact H1 | exact H2]. }
  eexists. split; [lists_unfold; reflexivity |].
  unfold filterlists.isLoaded. lists_unfold.
  destruct (filterlists.getCacheDatabaseVersion E) as [ver | e]; cbn.
  - destruct (filterlists.loadFromCache E (filterlists.defaultFilter v)) as [f [e |]]; cbn.
    + eexists. split; [reflexivity |]. cbn. rewrite Hnew.
      split; [split; [discriminate | intros [_ H]; discriminate H] |].
      intros i Hi. apply lookup_app_l. exact Hi.
    + rewrite Hnew. cbn. eexists. split; [reflexivity |]. cbn.
      rewrite list_lookup_insert_eq by (rewrite length_app; cbn; lia).
      split; [split; [intros _; split; [exists ver |]; reflexivity | reflexivity] |].
      intros i Hi. rewrite list_lookup_insert_ne by lia. apply lookup_app_l. exact Hi.
  - eexists. split; [reflexivity |]. cbn. rewrite Hnew.
    split; [split; [discriminate | intros [[ver H] _]; discriminate H] |].
    intros i Hi. apply lookup_app_l. exact Hi.
Qed.

Lemma step_keeps_signal_valid {A} (E : filterlists.Env A) o (s : filterlists.St A) :
  (forall v e v', filterlists.tryListUpdate E v = Ok e v' -> validSignal v -> validSignal v') ->
  validSignal (filterlists.vars s) ->
  match filterlists.step E o s with
  | Ok _ s' => validSignal (filterlists.vars s')
  | Panic msg =>
      msg = "close of closed channel"
      \/ exists v, filterlists.tryListUpdate E v = Panic msg
  end.
Proof.
  intros Hext Hv. destruct o as [| | | fn].
  - unfold validSignal in *. destruct s as [v n]. lists_unfold. cbn.
    repeat (branch; cbn); exact Hv.
  - cbn [filterlists.step].
    pose proof (start_cases E s Hv) as H.
    destruct (filterlists.start E s); [apply H | left; apply H].
  - destruct s as [v n]. lists_unfold. unfold validSignal. cbn.
    rewrite length_app. cbn. lia.
  - destruct s as [v n]. cbn [filterlists.vars] in Hv.
    destruct fn; lists_unfold;
      repeat (branch; cbn [filterlists.vars]; try exact Hv);
      try (eapply Hext; eassumption);
      right; eexists; eassumption.
Qed.

(** From a state whose signal refers to a channel, no run of [prep],
    [start], [stop] and event deliveries loses the channel of the signal,
    as long as [tryListUpdate] does not; and the only panic such a run can
    end in, apart from one of [tryListUpdate] itself, is the close of a
    closed channel: a nil channel is never closed. *)
Theorem run_keeps_signal_valid {A} (E : filterlists.Env A) ops :
  (forall v e v', filterlists.tryListUpdate E v = Ok e v' -> validSignal v -> validSignal v') ->
  forall s : filterlists.St A,
    validSignal (filterlists.vars s) ->
    match filterlists.run E ops s with
    | Ok _ s' => validSignal (filterlists.vars s')
    | Panic msg =>
        msg = "close of closed channel"
        \/ exists v, filterlists.tryListUpdate E v = Panic msg
    end.
Proof.
  intros Hext. induction ops as [| o rest IH]; intros s Hv.
  - exact Hv.
  - cbn [filterlists.run]. unfold bind.
    pose proof (step_keeps_signal_valid E o s Hext Hv) as Hs.
    destruct (filterlists.step E o s) as [err s1 |]; [apply IH; exact Hs | exact Hs].
Qed.

Lemma run_keeps_signal_valid_witness :
  let E := examples.listsEnv (inl "v1") None true in
  filterlists.run E [filterlists.callStart; filterlists.callStop; filterlists.callStart;
                     filterlists.callStart]
                  (filterlists.initial 0%nat)
  = Panic "close of closed channel".
Proof.
  intros E.
  pose proof (run_keeps_signal_valid E
                [filterlists.callStart; filterlists.callStop; filterlists.callStart;
                 filterlists.callStart]
                ltac:(intros v e v' H Hv;
                      cbv [E examples.listsEnv filterlists.tryListUpdate] in H;
                      injection H as <- <-;
                      unfold validSignal in *; cbn; rewrite length_insert; exact Hv)
                (filterlists.initial 0%nat) ltac:(vm_compute; lia)) as H.
  destruct (filterlists.run E _ (filterlists.initial 0%nat)) as [u s' |] eqn:Hr.
  - vm_compute in Hr. discriminate Hr.
  - destruct H as [-> | (v & Hp)]; [reflexivity | vm_compute in Hp; discriminate Hp].
Defined.
